(** * BlueBubbles server: change detection and correlation core

    A shallow embedding of the TypeScript sources of the message bridge:
    the push-driven update classifier ([PAPIMessageUpdateListener]), the
    outgoing message matcher ([OutgoingMessageManager]), the helper socket
    service ([BlueBubblesHelperService]) and the polling listener for
    incoming messages ([IncomingMessageListener]).

    Conventions of the embedding:
    - a JavaScript [Date] is the integer [getTime()] gives (milliseconds),
      a nullable field is an [option];
    - an object used as a dictionary is a [gmap string _];
    - a method that mutates [this] is a function in a small state-and-error
      monad: the state is what the method can touch, reading a property of
      [null] or [undefined] is [Throw TypeError];
    - calls to external collaborators (logger, event emitter, message
      manager) are recorded, in order, in a list of effects; a log line
      that interpolates values keeps its fixed text. *)

From Stdlib Require Import ZArith Ascii.
From stdpp Require Import base tactics option list strings gmap.

Local Open Scope Z_scope.
Local Open Scope string_scope.

(** ** JavaScript completions and the state-and-error monad *)

Module Js.

Inductive error : Type :=
| TypeError.

Inductive completion (A : Type) : Type :=
| Normal (a : A)
| Throw (e : error).
Global Arguments Normal {A} a.
Global Arguments Throw {A} e.

(** A computation over a mutable world [W].  A mutation made before a
    throw stays made: the world is returned in both cases. *)
Definition M (W A : Type) : Type := W -> W * completion A.

Definition ret {W A} (a : A) : M W A := fun w => (w, Normal a).

Definition throw {W A} (e : error) : M W A := fun w => (w, Throw e).

Definition bind {W A B} (c : M W A) (k : A -> M W B) : M W B :=
  fun w =>
    match c w with
    | (w', Normal a) => k a w'
    | (w', Throw e) => (w', Throw e)
    end.

Definition get {W} : M W W := fun w => (w, Normal w).

Definition modify {W} (f : W -> W) : M W unit := fun w => (f w, Normal tt).

(** [o.field] where [o] may be [null] or [undefined]. *)
Definition deref {W A} (o : option A) : M W A :=
  match o with
  | Some a => ret a
  | None => throw TypeError
  end.

Definition lift {W A} (c : completion A) : M W A := fun w => (w, c).

Definition is_throw {A} (c : completion A) : bool :=
  match c with
  | Throw _ => true
  | Normal _ => false
  end.

End Js.

(** The monad is used through stdpp's [x ← c; k] and [c;; k]. *)
Global Instance M_ret {W} : MRet (Js.M W) := fun A a => Js.ret a.
Global Instance M_bind {W} : MBind (Js.M W) := fun A B k c => Js.bind c k.

(** ** The dedup cache *)

Module EventCache.

(** Modelled from the spec: the class [EventCache] (module
    [@server/eventCache]) is not among the sources.  The spec gives its
    contract: keys are opaque strings kept in insertion order, [add]
    inserts and is idempotent, [find] tests membership, [purge] clears
    every entry, [size] counts the entries. *)
Record t : Type := mk { items : list string }.

Definition empty : t := {| items := [] |}.

Definition find (c : t) (key : string) : bool :=
  bool_decide (key ∈ items c).

Definition add (c : t) (key : string) : t :=
  if find c key then c else {| items := (items c ++ [key])%list |}.

Definition purge (c : t) : t := empty.

Definition size (c : t) : Z := Z.of_nat (length (items c)).

End EventCache.

(** ** Message records *)

Module Message.

(** The columns of the entity [Message] the listeners read.  Every date
    column is nullable; [error] is nullable with default 0. *)
Record t : Type := mk {
  guid : string;
  dateCreated : option Z;
  dateDelivered : option Z;
  dateRead : option Z;
  dateEdited : option Z;
  dateRetracted : option Z;
  isSent : bool;
  error : option Z;
  isFromMe : bool
}.

End Message.

(** ** PAPIMessageUpdateListener *)

Module PAPI.

Record MessageState : Type := mkState {
  st_dateCreated : Z;
  st_dateDelivered : Z;
  st_dateRead : Z;
  st_dateEdited : Z;
  st_dateRetracted : Z
}.

(** What the listener calls on other objects, in call order. *)
Inductive effect : Type :=
| Log (msg : string)
| Resolve (entry : Message.t)
| Reject (reason : string) (entry : Message.t)
| Emit (event : string) (source : option string) (entry : Message.t).

(** The listener's fields, with the effects it has caused so far.
    [notSent] is declared without initialiser and the constructor does not
    assign it: it is [undefined] ([None]) until line 161 assigns it. *)
Record listener : Type := mkListener {
  cache : EventCache.t;
  cacheState : gmap string MessageState;
  notSent : option (list string);
  effects : list effect
}.

Definition constructed (c : EventCache.t) : listener :=
  {| cache := c; cacheState := ∅; notSent := None; effects := [] |}.

Definition set_cache (c : EventCache.t) (l : listener) : listener :=
  {| cache := c; cacheState := cacheState l; notSent := notSent l;
     effects := effects l |}.

Definition set_cacheState (s : gmap string MessageState) (l : listener)
  : listener :=
  {| cache := cache l; cacheState := s; notSent := notSent l;
     effects := effects l |}.

Definition set_notSent (n : list string) (l : listener) : listener :=
  {| cache := cache l; cacheState := cacheState l; notSent := Some n;
     effects := effects l |}.

Definition perform (e : effect) (l : listener) : listener :=
  {| cache := cache l; cacheState := cacheState l; notSent := notSent l;
     effects := (effects l ++ [e])%list |}.

(** The collaborators that are not part of the listener: the message
    repository ([getMessage] gives [null] for an unknown guid), the helper
    [isNotEmpty] (used on a string and on a record), [contentString] of
    the entity and the answer of [messageManager.reject]. *)
Record collaborators : Type := mkCollab {
  getMessage : string -> option Message.t;
  isNotEmpty_string : string -> bool;
  isNotEmpty_message : option Message.t -> bool;
  contentString : Message.t -> string;
  reject_matches : Message.t -> bool
}.

(** [d ? d.getTime() : 0] *)
Definition time_or_zero (d : option Z) : Z := default 0 d.

Definition getMessageEvent (l : listener) (message : Message.t)
  : Js.completion (option string) :=
  let guid := Message.guid message in
  if negb (EventCache.find (cache l) guid) then Js.Normal (Some "new-entry")
  else
    match cacheState l !! guid with
    | None => Js.Normal None
    | Some state =>
        match Message.dateCreated message with
        | None => Js.Throw Js.TypeError
        | Some created =>
            if created >? st_dateCreated state
            then Js.Normal (Some "updated-entry")
            else
              let delivered := time_or_zero (Message.dateDelivered message) in
              if delivered >? st_dateDelivered state
              then Js.Normal (Some "updated-entry")
              else
                let read := time_or_zero (Message.dateRead message) in
                if read >? st_dateRead state
                then Js.Normal (Some "updated-entry")
                else
                  let edited := time_or_zero (Message.dateEdited message) in
                  if edited >? st_dateEdited state
                  then Js.Normal (Some "updated-entry")
                  else
                    let retracted :=
                      time_or_zero (Message.dateRetracted message) in
                    if retracted >? st_dateRetracted state
                    then Js.Normal (Some "updated-entry")
                    else Js.Normal None
        end
    end.

(** The object stored at lines 100-106, [created] being
    [message.dateCreated.getTime()]. *)
Definition snapshot_of (created : Z) (m : Message.t) : MessageState :=
  {| st_dateCreated := created;
     st_dateDelivered := time_or_zero (Message.dateDelivered m);
     st_dateRead := time_or_zero (Message.dateRead m);
     st_dateEdited := time_or_zero (Message.dateEdited m);
     st_dateRetracted := time_or_zero (Message.dateRetracted m) |}.

Definition processMessageEvent (message : Message.t)
  : Js.M listener (option string) :=
  l ← Js.get;
  event ← Js.lift (getMessageEvent l message);
  match event with
  | None => Js.ret None
  | Some ev =>
      (if bool_decide (ev = "new-entry")
       then Js.modify (fun l =>
              set_cache (EventCache.add (cache l) (Message.guid message)) l)
       else Js.ret tt);;
      created ← Js.deref (Message.dateCreated message);
      Js.modify (fun l =>
        set_cacheState
          (<[Message.guid message := snapshot_of created message]>
             (cacheState l)) l);;
      Js.ret (Some ev)
  end.

(** "At least one of the five tracked timestamps is strictly greater than
    the stored snapshot value", absent ones counting as 0. *)
Definition advanced (created : Z) (m : Message.t) (state : MessageState)
  : Prop :=
  created > st_dateCreated state
  \/ time_or_zero (Message.dateDelivered m) > st_dateDelivered state
  \/ time_or_zero (Message.dateRead m) > st_dateRead state
  \/ time_or_zero (Message.dateEdited m) > st_dateEdited state
  \/ time_or_zero (Message.dateRetracted m) > st_dateRetracted state.

Definition log (msg : string) : Js.M listener unit :=
  Js.modify (perform (Log msg)).

Definition emit (event : string) (source : option string) (entry : Message.t)
  : Js.M listener unit :=
  Js.modify (perform (Emit event source entry)).

(** [flag ? message : null] *)
Definition when_flag (flag : bool) (message : option Message.t)
  : option Message.t :=
  if flag then message else None.

(** [for (const i of this.notSent) if (unsentIds !== i) unsentIds = i;] *)
Definition scan_notSent (unsentIds : string) (pending : list string)
  : string :=
  foldl (fun acc i => if bool_decide (acc ≠ i) then i else acc)
        unsentIds pending.

(** [(m?.error ?? 0)] *)
Definition error_code (m : Message.t) : Z := default 0 (Message.error m).

(** The first loop of [handleOutgoingMessage] (lines 167-176).  The
    result is [true] when the loop ran to its end and [false] when its
    body executed [return]. *)
Fixpoint emit_sent (toEmit : list Message.t) : Js.M listener bool :=
  match toEmit with
  | [] => Js.ret true
  | entry :: rest =>
      event ← processMessageEvent entry;
      match event with
      | None => Js.ret false
      | Some ev =>
          Js.modify (perform (Resolve entry));;
          emit ev (Some "outgoing-message") entry;;
          emit_sent rest
      end
  end.

(** The second loop (lines 177-197), over the one-element array
    [[lookbackErrored]], whose element may be [null]. *)
Fixpoint emit_errored (C : collaborators) (entries : list (option Message.t))
  : Js.M listener bool :=
  match entries with
  | [] => Js.ret true
  | slot :: rest =>
      entry ← Js.deref slot;
      event ← processMessageEvent entry;
      match event with
      | None => Js.ret false
      | Some _ =>
          Js.modify (perform (Reject "message-send-error" entry));;
          let success := reject_matches C entry in
          log ("Errored Msg -> " ++ Message.guid entry ++ " -> "
                 ++ contentString C entry);;
          (if negb success
           then log "Message Manager Match Failed";;
                emit "message-send-error" (Some "outgoing-message") entry
           else Js.ret tt);;
          emit_errored C rest
      end
  end.

Definition handleOutgoingMessage (C : collaborators)
  (messageGUID : string) (isFromMe isSent : bool) : Js.M listener unit :=
  let newMessage := getMessage C messageGUID in
  let newSent := when_flag isSent newMessage in
  let newUnsent := when_flag (negb isSent) newMessage in
  match newUnsent with
  | Some u =>
      log ("Detected " ++ Message.guid u ++ " unsent outgoing message(s)")
  | None => Js.ret tt
  end;;
  u ← Js.deref newUnsent;
  l ← Js.get;
  pending ← Js.deref (notSent l);
  let unsentIds := scan_notSent (Message.guid u) pending in
  let lookbackMessage :=
    if isNotEmpty_string C unsentIds then getMessage C unsentIds else None in
  (if isNotEmpty_message C lookbackMessage
   then lb ← Js.deref lookbackMessage;
        log ("Detected " ++ Message.guid lb
               ++ " sent (previously unsent) message(s)")
   else Js.ret tt);;
  lb ← Js.deref lookbackMessage;
  let lookbackSent :=
    when_flag (Message.isSent lb && (error_code lb =? 0)%Z) (Some lb) in
  let lookbackErrored := when_flag (error_code lb >? 0)%Z (Some lb) in
  let lookbackUnsent :=
    when_flag (negb (Message.isSent lb) && (error_code lb =? 0)%Z) (Some lb) in
  lu ← Js.deref lookbackUnsent;
  Js.modify (set_notSent [Message.guid lu]);;
  let toEmit := (option_list newSent ++ option_list lookbackSent)%list in
  finished ← emit_sent toEmit;
  if (finished : bool) then emit_errored C [lookbackErrored];; Js.ret tt
  else Js.ret tt.

Definition handleOutgoingMessageUpdate (C : collaborators)
  (messageGUID : string) (isFromMe isSent : bool) : Js.M listener unit :=
  entry ← Js.deref (getMessage C messageGUID);
  event ← processMessageEvent entry;
  match event with
  | None => Js.ret tt
  | Some ev =>
      Js.modify (perform (Resolve entry));;
      emit ev None entry
  end.

Definition onReceiveMessageUpdate (C : collaborators)
  (messageGUID : string) (isSent isFromMe : bool) : Js.M listener unit :=
  log "MESSAGE UPDATE OBJECT RECEIVED";;
  log messageGUID;;
  if isFromMe
  then handleOutgoingMessage C messageGUID isFromMe isSent;;
       handleOutgoingMessageUpdate C messageGUID isFromMe isSent
  else
    newMessage ← Js.deref (getMessage C messageGUID);
    event ← processMessageEvent newMessage;
    match event with
    | None => Js.ret tt
    | Some ev => emit ev (Some "incoming-message") newMessage
    end.

(** [checkCache], [now] being the clock reading of line 55.  Deleting
    the current key inside [for ... in] leaves the other keys to be
    visited: the loop keeps the snapshots that are not older than five
    minutes. *)
Definition checkCache (now : Z) (l : listener) : listener :=
  let l :=
    if (EventCache.size (cache l) >? 250)%Z
    then if (EventCache.size (cache l) >? 0)%Z
         then set_cache (EventCache.purge (cache l)) l
         else l
    else l in
  let fiveMinutesAgo := now - 5 * 60 * 1000 in
  set_cacheState
    (filter (fun entry => ~ (st_dateCreated (snd entry) < fiveMinutesAgo))
       (cacheState l)) l.

(** [start]: the dedup cache is purged ([lastCheck] is written and never
    read). *)
Definition start (l : listener) : listener :=
  set_cache (EventCache.purge (cache l)) l.

(** The calls of the message manager and the emitter among effects. *)
Definition is_log (e : effect) : bool :=
  match e with
  | Log _ => true
  | _ => false
  end.

(** What the two log lines of [onReceiveMessageUpdate] leave. *)
Definition announced (messageGUID : string) (l : listener) : listener :=
  perform (Log messageGUID)
    (perform (Log "MESSAGE UPDATE OBJECT RECEIVED") l).

End PAPI.

(** ** OutgoingMessageManager *)

Module OutgoingMessageManager.

Section Manager.

(** The class [MessagePromise] is declared elsewhere: the manager uses
    its flag [isResolved] and its match predicate [isSame] only. *)
Variable MessagePromise : Type.
Variable isResolved : MessagePromise -> bool.
Variable isSame : MessagePromise -> Message.t -> bool.

(** [promises], oldest first. *)
Definition t : Type := list MessagePromise.

Definition add (promises : t) (promise : MessagePromise) : t :=
  (promises ++ [promise])%list.

(** The loop of [findIndex] from index [i] on, [rest] being
    [promises.slice(i)]. *)
Fixpoint findIndex_from (i : Z) (rest : list MessagePromise)
    (message : Message.t) (includeResolved : bool) : Z :=
  match rest with
  | [] => -1
  | p :: rest' =>
      if negb includeResolved && isResolved p
      then findIndex_from (i + 1) rest' message includeResolved
      else if isSame p message then i
      else findIndex_from (i + 1) rest' message includeResolved
  end.

Definition findIndex (promises : t) (message : Message.t)
    (includeResolved : bool) : Z :=
  findIndex_from 0 promises message includeResolved.

(** The loop of [find]; [null] is [None]. *)
Fixpoint find (promises : t) (message : Message.t)
    (includeResolved : bool) : option MessagePromise :=
  match promises with
  | [] => None
  | p :: rest =>
      if negb includeResolved && isResolved p
      then find rest message includeResolved
      else if isSame p message then Some p
      else find rest message includeResolved
  end.

(** A promise the scan may return: not skipped, and the same as the
    message. *)
Definition candidate (includeResolved : bool) (message : Message.t)
    (p : MessagePromise) : bool :=
  (includeResolved || negb (isResolved p)) && isSame p message.

End Manager.

End OutgoingMessageManager.

(** ** The transaction correlator *)

Module TransactionManager.

(** Modelled from the spec: the classes [TransactionManager] and
    [TransactionPromise] (module [@server/managers/transactionManager])
    are not among the sources; the helper service only calls them.  The
    spec gives the contract: [add] registers an outstanding transaction
    keyed by its correlation id, [findIndex] locates it, and a
    transaction is destroyed on its first terminal transition: when it is
    fulfilled (success payload) or rejected (error payload) it is removed
    from the correlator and the caller who issued the request is
    unblocked with that result. *)
Record TransactionPromise : Type := mkPromise {
  transactionId : string;
  type : string
}.

Inductive outcome : Type :=
| Fulfilled (identifier : option string) (data : option string)
| Rejected (reason : option string).

(** [promises], the outstanding transactions, oldest first. *)
Definition t : Type := list TransactionPromise.

Definition add (promises : t) (promise : TransactionPromise) : t :=
  (promises ++ [promise])%list.

Fixpoint findIndex_from (i : Z) (rest : list TransactionPromise)
    (id : string) : Z :=
  match rest with
  | [] => -1
  | p :: rest' =>
      if bool_decide (transactionId p = id) then i
      else findIndex_from (i + 1) rest' id
  end.

Definition findIndex (promises : t) (id : string) : Z :=
  findIndex_from 0 promises id.

(** The terminal transition of [promises[idx]]: the entry leaves the
    correlator. *)
Definition settle (promises : t) (idx : Z) : t :=
  delete (Z.to_nat idx) promises.

End TransactionManager.

(** ** BlueBubblesHelperService *)

Module Helper.

Record TypingState : Type := mkTyping {
  lastSeen : Z;
  lastValue : bool
}.

(** Calls on the sockets, the logger, the event sink, the update listener
    and the callers awaiting a transaction.  [EmitTyping] carries the
    clock reading [now] of the call that made it. *)
Inductive effect : Type :=
| Log (msg : string)
| DestroyHelper
| CloseServer
| Listen
| EmitTyping (now : Z) (display : bool) (guid : option string)
| ReceiveMessageUpdate (guid : option string)
| Settled (transactionId : string) (result : TransactionManager.outcome).

(** The fields of the service.  [helper] tells whether an accepted socket
    is held and not destroyed, [listening] whether a server is held and
    listening. *)
Record service : Type := mkService {
  restartCounter : Z;
  helper : bool;
  listening : bool;
  typingCache : gmap string TypingState;
  transactionManager : TransactionManager.t;
  effects : list effect
}.

(** The service after its constructor. *)
Definition constructed : service :=
  {| restartCounter := 0; helper := false; listening := false;
     typingCache := ∅; transactionManager := []; effects := [] |}.

Definition set_restartCounter (n : Z) (s : service) : service :=
  {| restartCounter := n; helper := helper s; listening := listening s;
     typingCache := typingCache s;
     transactionManager := transactionManager s; effects := effects s |}.

Definition set_helper (b : bool) (s : service) : service :=
  {| restartCounter := restartCounter s; helper := b;
     listening := listening s; typingCache := typingCache s;
     transactionManager := transactionManager s; effects := effects s |}.

Definition set_listening (b : bool) (s : service) : service :=
  {| restartCounter := restartCounter s; helper := helper s;
     listening := b; typingCache := typingCache s;
     transactionManager := transactionManager s; effects := effects s |}.

Definition set_typingCache (c : gmap string TypingState) (s : service)
  : service :=
  {| restartCounter := restartCounter s; helper := helper s;
     listening := listening s; typingCache := c;
     transactionManager := transactionManager s; effects := effects s |}.

Definition set_transactionManager (tm : TransactionManager.t) (s : service)
  : service :=
  {| restartCounter := restartCounter s; helper := helper s;
     listening := listening s; typingCache := typingCache s;
     transactionManager := tm; effects := effects s |}.

Definition perform (e : effect) (s : service) : service :=
  {| restartCounter := restartCounter s; helper := helper s;
     listening := listening s; typingCache := typingCache s;
     transactionManager := transactionManager s;
     effects := (effects s ++ [e])%list |}.

Definition log (msg : string) : service -> service := perform (Log msg).

(** *** Start, stop and the restart counter *)

Definition stop (s : service) : service :=
  let s := log "Stopping Private API Helper..." s in
  let s := if helper s then set_helper false (perform DestroyHelper s)
           else s in
  if listening s
  then set_listening false
         (perform CloseServer (log "Stopping Private API Helper..." s))
  else s.

(** [configureServer] creates a server, not yet listening, with the
    handlers below attached; [listen] is asked for right away. *)
Definition start (s : service) : service :=
  let s := stop s in
  let s := log "Starting Private API Helper..." s in
  let s := set_listening false s in
  let s := log "Starting Socket server on port" s in
  perform Listen s.

(** The callback of [listen]: the server is up. *)
Definition onListening (s : service) : service :=
  set_restartCounter 0 (set_listening true s).

(** The handler of the server's "error" event. *)
Definition onServerError (err : string) (s : service) : service :=
  let s := log "An error occured in the TCP Socket! Restarting" s in
  let s := log err s in
  if (restartCounter s <=? 5)%Z
  then start (set_restartCounter (restartCounter s + 1) s)
  else log "Max restart count reached for Private API listener..." s.

(** How often [listen] has been asked for. *)
Definition is_listen (e : effect) : bool :=
  match e with
  | Listen => true
  | _ => false
  end.

Definition starts (s : service) : nat :=
  length (List.filter is_listen (effects s)).

(** [n] failures of the server in a row, no successful [listen] in
    between. *)
Fixpoint failures (n : nat) (s : service) : service :=
  match n with
  | O => s
  | S n' => onServerError "Error: listen EADDRINUSE" (failures n' s)
  end.

(** *** Typing indicators *)

(** The property name a guid is stored under; an absent guid
    ([undefined]) is stored under ["undefined"] and is never among
    [Object.keys]. *)
Definition key_of (guid : option string) : string :=
  default "undefined" guid.

(** [shouldEmit] of [handleTypingIndicator], [now] being the clock
    reading of line 580. *)
Definition shouldEmit (s : service) (display : bool) (guid : option string)
    (now : Z) : bool :=
  match guid with
  | None => true
  | Some g =>
      match typingCache s !! g with
      | None => true
      | Some last =>
          if negb (Bool.eqb (lastValue last) display) then true
          else (now - lastSeen last >? 5000)%Z
      end
  end.

(** [this.typingCache[key] = entry].  The cache is a plain object, of
    which the map holds the own properties ([Object.keys]): assigning to
    ["__proto__"] sets the prototype and adds no own property.  The
    prototype is never read: a property is read only after it was found
    among the own keys. *)
Definition assign (key : string) (entry : TypingState)
    (cache : gmap string TypingState) : gmap string TypingState :=
  if bool_decide (key = "__proto__") then cache
  else <[key := entry]> cache.

Definition handleTypingIndicator (event : string) (guid : option string)
    (now : Z) (s : service) : service :=
  let display := bool_decide (event = "started-typing") in
  if shouldEmit s display guid now
  then perform (EmitTyping now display guid)
         (set_typingCache
            (assign (key_of guid) {| lastSeen := now; lastValue := display |}
               (typingCache s)) s)
  else s.

(** *** Inbound data *)

(** A decoded frame: the properties the dispatcher reads, each a string on
    this protocol, [None] when the property is missing. *)
Record frame : Type := mkFrame {
  f_transactionId : option string;
  f_identifier : option string;
  f_data : option string;
  f_error : option string;
  f_event : option string;
  f_guid : option string
}.

(** What [JSON.parse] does with a line: it throws, gives [null], or
    gives a value the dispatcher reads properties of. *)
Inductive parsed : Type :=
| SyntaxError
| JsonNull
| JsonValue (data : frame).

Record collaborators : Type := mkCollab {
  JSON_parse : string -> parsed;
  isNotEmpty : string -> bool
}.

(** [if (x)] on a string property: missing and empty are falsy. *)
Definition truthy (x : option string) : bool :=
  match x with
  | Some v => negb (bool_decide (v = EmptyString))
  | None => false
  end.

(** Lines 640-660, [data] decoded and not null. *)
Definition dispatch (C : collaborators) (data : frame) (now : Z)
    (s : service) : service :=
  if truthy (f_transactionId data) then
    let id := default EmptyString (f_transactionId data) in
    let idx := TransactionManager.findIndex (transactionManager s) id in
    if (idx >=? 0)%Z then
      let result :=
        if isNotEmpty C (default EmptyString (f_error data))
        then TransactionManager.Rejected (f_error data)
        else TransactionManager.Fulfilled (f_identifier data) (f_data data) in
      perform (Settled id result)
        (set_transactionManager
           (TransactionManager.settle (transactionManager s) idx) s)
    else s
  else if truthy (f_event data) then
    let event := default EmptyString (f_event data) in
    if bool_decide (event = "ping")
    then log "Private API Helper connected!" s
    else if bool_decide (event = "started-typing")
              || bool_decide (event = "stopped-typing")
    then handleTypingIndicator event (f_guid data) now s
    else if bool_decide (event = "message-update")
    then perform (ReceiveMessageUpdate (f_guid data)) s
    else s
  else s.

(** [String(eventRaw).split("\n")] *)
Fixpoint split_lines (raw : string) : list string :=
  match raw with
  | EmptyString => [EmptyString]
  | String c rest =>
      if Ascii.eqb c "010"%char then EmptyString :: split_lines rest
      else
        match split_lines rest with
        | [] => [String c EmptyString]
        | line :: lines => String c line :: lines
        end
  end.

(** [[...new Set(eventData)]]: the first occurrence of each line, in
    order. *)
Fixpoint unique_from (seen lines : list string) : list string :=
  match lines with
  | [] => []
  | line :: rest =>
      if bool_decide (line ∈ seen) then unique_from seen rest
      else line :: unique_from (line :: seen) rest
  end.

Definition uniqueEvents (eventData : list string) : list string :=
  unique_from [] eventData.

Definition is_space (c : Ascii.ascii) : bool :=
  let n := Ascii.nat_of_ascii c in
  ((9 <=? n)%nat && (n <=? 13)%nat) || (n =? 32)%nat.

(** A line is the UTF-8 text of the string the code sees.  White space
    and line terminators of more than one byte: U+00A0 in two bytes, and
    U+1680, U+2000 to U+200A, U+2028, U+2029, U+202F, U+205F, U+3000 and
    U+FEFF in three. *)
Definition is_space2 (a b : Ascii.ascii) : bool :=
  (Ascii.nat_of_ascii a =? 194)%nat && (Ascii.nat_of_ascii b =? 160)%nat.

Definition is_space3 (a b c : Ascii.ascii) : bool :=
  let x := Ascii.nat_of_ascii a in
  let y := Ascii.nat_of_ascii b in
  let z := Ascii.nat_of_ascii c in
  ((x =? 225) && (y =? 154) && (z =? 128))%nat
  || ((x =? 226) && (y =? 128)
      && (((128 <=? z) && (z <=? 138)) || (z =? 168) || (z =? 169)
          || (z =? 175)))%nat
  || ((x =? 226) && (y =? 129) && (z =? 159))%nat
  || ((x =? 227) && (y =? 128) && (z =? 128))%nat
  || ((x =? 239) && (y =? 187) && (z =? 191))%nat.

(** [!event || event.trim().length === 0]: nothing but white space. *)
Fixpoint blank (event : string) : bool :=
  match event with
  | EmptyString => true
  | String a rest =>
      if is_space a then blank rest
      else
        match rest with
        | String b rest2 =>
            if is_space2 a b then blank rest2
            else
              match rest2 with
              | String c rest3 =>
                  if is_space3 a b c then blank rest3 else false
              | EmptyString => false
              end
        | EmptyString => false
        end
  end.

(** The loop over [uniqueEvents] (lines 617-661): [continue] goes on
    with [rest], [return] leaves the handler. *)
Fixpoint process_events (C : collaborators) (now : Z)
    (events : list string) (s : service) : service :=
  match events with
  | [] => s
  | event :: rest =>
      if blank event then process_events C now rest s
      else
        let s := log ("Received data from BlueBubblesHelper: " ++ event) s in
        match JSON_parse C event with
        | SyntaxError =>
            log ("Failed to decode BlueBubblesHelper data! " ++ event) s
        | JsonNull => log "BlueBubblesHelper sent null data" s
        | JsonValue data => process_events C now rest (dispatch C data now s)
        end
  end.

(** The handler of the helper socket's "data" event. *)
Definition onData (C : collaborators) (now : Z) (eventRaw : option string)
    (s : service) : service :=
  match eventRaw with
  | None => log "Received null data from BlueBubblesHelper!" s
  | Some raw => process_events C now (uniqueEvents (split_lines raw)) s
  end.

(** *** Histories of typing pushes (used to state the debounce) *)

Record typing_push : Type := mkPush {
  push_event : string;
  push_guid : option string;
  push_now : Z
}.

Definition push_display (p : typing_push) : bool :=
  bool_decide (push_event p = "started-typing").






(** Whether a step made a typing emission. *)
Definition emitted (before after : service) : bool :=
  bool_decide (length (effects before) < length (effects after))%nat.

(** *** Events of the listening server *)

Inductive server_event : Type :=
| ServerError (err : string)
| ServerListening.

Definition on_server_event (s : service) (e : server_event) : service :=
  match e with
  | ServerError err => onServerError err s
  | ServerListening => onListening s
  end.

Definition on_server_events (s : service) (es : list server_event)
  : service :=
  foldl on_server_event s es.

(** *** Requests to the helper *)

(** A value of the [data] dictionary of a request. *)
Inductive value : Type :=
| Null
| Str (s : string)
| Num (n : Z)
| Obj (fields : list (string * string)).

(** [{ action, data, transactionId? }], the object handed to
    [JSON.stringify] and written as one line. *)
Record request : Type := mkRequest {
  r_action : string;
  r_data : list (string * value);
  r_transactionId : option string
}.

(** What an [async] command settles with: an [Error] raised, or a value
    returned, [Some id] standing for the promise of transaction [id] and
    [None] for [null] or no value. *)
Inductive reply : Type :=
| Raised (msg : string)
| Returned (awaiting : option string).

(** [writeData].  [res] is what [this.helper.write] returns; without a
    socket the call raises a TypeError inside the promise, which the
    [catch] logs like a failed write.  The result is the service, the
    requests handed to the socket and the value returned.  (The error
    callback of [write], which runs later, is left out.) *)
Definition writeData (res : bool) (action : string)
    (data : list (string * value))
    (transaction : option TransactionManager.TransactionPromise)
    (s : service) : service * list request * option string :=
  let s :=
    match transaction with
    | Some t =>
        set_transactionManager
          (TransactionManager.add (transactionManager s) t) s
    | None => s
    end in
  if helper s then
    let d := {| r_action := action; r_data := data;
                r_transactionId :=
                  TransactionManager.transactionId <$> transaction |} in
    if res
    then (s, [d], TransactionManager.transactionId <$> transaction)
    else (log "Failed to send request to Private API!" s, [d], None)
  else (log "Failed to send request to Private API!" s, [], None).

(** [x ?? null] of an optional string as a value. *)
Definition str_or_null (x : option string) : value :=
  match x with
  | Some v => Str v
  | None => Null
  end.

(** A command that raises before it does anything. *)
Definition raise (msg : string) (s : service)
  : service * list request * reply :=
  (s, [], Raised msg).

Definition returned (r : service * list request * option string)
  : service * list request * reply :=
  (r.1.1, r.1.2, Returned r.2).

(** [sendMessage]; [id] is the transactionId the new
    [TransactionPromise] draws. *)
Definition sendMessage (res : bool) (id : string)
    (chatGuid message : option string)
    (attributedBody : option (list (string * string)))
    (subject effectId selectedMessageGuid : option string) (partIndex : Z)
    (s : service) : service * list request * reply :=
  if negb (truthy chatGuid) || negb (truthy message)
  then raise "Failed to send message. Invalid params!" s
  else
    let request := TransactionManager.mkPromise id "MESSAGE" in
    returned
      (writeData res "send-message"
         [("chatGuid", str_or_null chatGuid);
          ("subject", str_or_null subject);
          ("message", str_or_null message);
          ("attributedBody", from_option Obj Null attributedBody);
          ("effectId", str_or_null effectId);
          ("selectedMessageGuid", str_or_null selectedMessageGuid);
          ("partIndex", Num partIndex)]
         (Some request) s).

(** [toggleParticipant]; [action] is "add" or "remove". *)
Definition toggleParticipant (res : bool) (id : string)
    (chatGuid address : option string) (action : string) (s : service)
  : service * list request * reply :=
  if negb (truthy chatGuid) || negb (truthy address)
     || negb (truthy (Some action))
  then raise ("Failed to " ++ action
                ++ " participant to chat. Invalid params!") s
  else
    let request := TransactionManager.mkPromise id "CHAT" in
    returned
      (writeData res (action ++ "-participant")
         [("chatGuid", str_or_null chatGuid);
          ("address", str_or_null address)]
         (Some request) s).

Definition addParticipant (res : bool) (id : string)
    (chatGuid address : option string) (s : service)
  : service * list request * reply :=
  toggleParticipant res id chatGuid address "add" s.

Definition removeParticipant (res : bool) (id : string)
    (chatGuid address : option string) (s : service)
  : service * list request * reply :=
  toggleParticipant res id chatGuid address "remove" s.

Definition setDisplayName (res : bool) (id : string)
    (chatGuid newName : option string) (s : service)
  : service * list request * reply :=
  if negb (truthy chatGuid) || negb (truthy newName)
  then raise "Failed to set chat display name. Invalid params!" s
  else
    let request := TransactionManager.mkPromise id "CHAT" in
    returned
      (writeData res "set-display-name"
         [("chatGuid", str_or_null chatGuid);
          ("newName", str_or_null newName)]
         (Some request) s).

(** [getTypingStatus]: the request carries no transaction. *)
Definition getTypingStatus (res : bool) (chatGuid : option string)
    (s : service) : service * list request * reply :=
  if negb (truthy chatGuid)
  then raise "Failed to retreive typing status, no chatGuid specified!" s
  else
    returned
      (writeData res "check-typing-status"
         [("chatGuid", str_or_null chatGuid)] None s).

(** The lines of a read put back together. *)
Fixpoint join_lines (lines : list string) : string :=
  match lines with
  | [] => EmptyString
  | [line] => line
  | line :: rest => line ++ String "010"%char (join_lines rest)
  end.

(** A line has no line feed in it. *)
Fixpoint one_line (line : string) : bool :=
  match line with
  | EmptyString => true
  | String c rest => negb (Ascii.eqb c "010"%char) && one_line rest
  end.

(** How many times the server came up in a run of events. *)
Definition listenings (es : list server_event) : nat :=
  length (List.filter (fun e => match e with
                                | ServerListening => true
                                | ServerError _ => false
                                end) es).




End Helper.

(** ** IncomingMessageListener *)

Module IncomingMessageListener.

(** One element of [where]: a statement and its named arguments. *)
Record where_clause : Type := mkWhere {
  statement : string;
  args : list (string * Z)
}.

(** The argument of [repo.getMessages]; dates as [getTime()]. *)
Record DBMessageParams : Type := mkParams {
  after : Z;
  before : Z;
  withChats : bool;
  where_ : list where_clause
}.

(** Calls on the repository, the logger, the cache and the emitter, in
    call order. *)
Inductive effect : Type :=
| GetMessages (params : DBMessageParams)
| Log (msg : string)
| CacheAdd (key : string)
| Emit (event : string) (entry : Message.t).

Record listener : Type := mkListener {
  cache : EventCache.t;
  effects : list effect
}.

(** The repository and the helper [getCacheName] are declared
    elsewhere. *)
Record collaborators : Type := mkCollab {
  getMessages : DBMessageParams -> list Message.t;
  getCacheName : Message.t -> string
}.

Definition perform (e : effect) (l : listener) : listener :=
  {| cache := cache l; effects := (effects l ++ [e])%list |}.

Definition set_cache (c : EventCache.t) (l : listener) : listener :=
  {| cache := c; effects := effects l |}.

(** [static transformEntry] *)
Definition transformEntry (messageEntry : Message.t) : Message.t :=
  messageEntry.

(** The callback of [entries.forEach] (lines 39-48). *)
Definition forEach_entry (C : collaborators) (l : listener)
    (entry : Message.t) : listener :=
  let cacheName := getCacheName C entry in
  if EventCache.find (cache l) cacheName then l
  else
    let l := perform (CacheAdd cacheName)
               (set_cache (EventCache.add (cache l) cacheName) l) in
    perform (Emit "new-entry" (transformEntry entry)) l.

(** The parameters [getEntries] asks the repository with. *)
Definition getEntries_params (after before : Z) : DBMessageParams :=
  let offsetDate := after - 15000 in
  let query :=
    [ {| statement := "message.is_from_me = :fromMe";
         args := [("fromMe", 0)] |} ] in
  {| after := offsetDate; before := before; withChats := true;
     where_ := query |}.

Definition getEntries (C : collaborators) (after before : Z)
    (l : listener) : listener :=
  let params := getEntries_params after before in
  let entries := getMessages C params in
  let l := perform (GetMessages params) l in
  let l := perform (Log "Last processing time was: ") l in
  foldl (forEach_entry C) l entries.

(** The rows emitted among effects, in order. *)
Definition emitted (es : list effect) : list Message.t :=
  omap (fun e => match e with
                 | Emit _ entry => Some entry
                 | _ => None
                 end) es.

End IncomingMessageListener.

(** * Example data *)

Module Examples.

Import PAPI.

(** A cached record with a snapshot, whose delivery has just been
    stamped. *)
Definition seen_listener : listener :=
  {| cache := {| EventCache.items := ["G1"] |};
     cacheState := {["G1" := mkState 1000 0 0 0 0]};
     notSent := None;
     effects := [] |}.

Definition delivered_record : Message.t :=
  Message.mk "G1" (Some 1000) (Some 1500) None None None true None true.

(** The same record without created timestamp. *)
Definition undated_record : Message.t :=
  Message.mk "G1" None (Some 1500) None None None true None true.

(** A store that holds [delivered_record] (sent, no error) and nothing
    else; [isNotEmpty] as on strings and records that are present. *)
Definition store_with_G1 : collaborators :=
  {| getMessage := fun g =>
       if bool_decide (g = "G1") then Some delivered_record else None;
     isNotEmpty_string := fun s => negb (bool_decide (s = EmptyString));
     isNotEmpty_message := fun m => bool_decide (is_Some m);
     contentString := fun m => Message.guid m;
     reject_matches := fun _ => false |}.

(** Frames of the helper protocol.  [q] puts a name between double
    quotes. *)
Definition q (name : string) : string :=
  String "034"%char (name ++ String "034"%char EmptyString).

(** [{"event":"started-typing","guid":"G1"}] *)
Definition typing_frame : string :=
  "{" ++ q "event" ++ ":" ++ q "started-typing" ++ ","
      ++ q "guid" ++ ":" ++ q "G1" ++ "}".

(** [{"event":"message-update","guid":"G2"}] *)
Definition update_frame : string :=
  "{" ++ q "event" ++ ":" ++ q "message-update" ++ ","
      ++ q "guid" ++ ":" ++ q "G2" ++ "}".

(** [{"transactionId":"T1","identifier":"G9"}] *)
Definition response_frame : string :=
  "{" ++ q "transactionId" ++ ":" ++ q "T1" ++ ","
      ++ q "identifier" ++ ":" ++ q "G9" ++ "}".

(** A line cut short: not JSON. *)
Definition malformed_frame : string := "{" ++ q "event" ++ ":".

(** [JSON.parse] on the lines above; no other line is decoded in the
    examples.  [isNotEmpty] as on strings. *)
Definition helper_collaborators : Helper.collaborators :=
  {| Helper.JSON_parse := fun line =>
       if bool_decide (line = typing_frame)
       then Helper.JsonValue
              (Helper.mkFrame None None None None
                 (Some "started-typing") (Some "G1"))
       else if bool_decide (line = update_frame)
       then Helper.JsonValue
              (Helper.mkFrame None None None None
                 (Some "message-update") (Some "G2"))
       else if bool_decide (line = response_frame)
       then Helper.JsonValue
              (Helper.mkFrame (Some "T1") (Some "G9") None None None None)
       else if bool_decide (line = "null") then Helper.JsonNull
       else Helper.SyntaxError;
     Helper.isNotEmpty := fun s => negb (bool_decide (s = EmptyString)) |}.

(** One read of the socket: an update, a malformed line, a typing
    frame. *)
Definition burst : string :=
  update_frame ++ String "010"%char
    (malformed_frame ++ String "010"%char typing_frame).

(** The same read without the malformed line. *)
Definition clean_burst : string :=
  update_frame ++ String "010"%char typing_frame.

(** A service awaiting the answer to transaction "T1". *)
Definition awaiting_T1 : Helper.service :=
  Helper.set_transactionManager
    [TransactionManager.mkPromise "T0" "chat";
     TransactionManager.mkPromise "T1" "message"]
    Helper.constructed.

(** A stand-in for the class [MessagePromise]: the guid the sender waits
    for and the flag [isResolved]; [isSame] compares the guid. *)
Definition sample_promise : Type := string * bool.

Definition sample_isResolved (p : sample_promise) : bool := snd p.

Definition sample_isSame (p : sample_promise) (m : Message.t) : bool :=
  bool_decide (fst p = Message.guid m).

(** A repository that returns the same two rows for every window; the
    cache key of a row is its guid. *)
Definition inbox : IncomingMessageListener.collaborators :=
  {| IncomingMessageListener.getMessages := fun _ =>
       [delivered_record; undated_record];
     IncomingMessageListener.getCacheName := Message.guid |}.


End Examples.

(** * Properties *)

Ltac js_unfold :=
  unfold mbind, M_bind, mret, M_ret, Js.bind, Js.ret, Js.lift, Js.get,
    Js.modify, Js.deref, Js.throw.

(** ** The dedup cache *)

Lemma EventCache_find_add (c : EventCache.t) (key : string) :
  EventCache.find (EventCache.add c key) key = true.
Proof.
  unfold EventCache.add.
  destruct (EventCache.find c key) eqn:Hfind; [exact Hfind|].
  unfold EventCache.find; simpl.
  apply bool_decide_eq_true. set_solver.
Qed.

Lemma EventCache_add_found (c : EventCache.t) (key : string) :
  EventCache.find c key = true -> EventCache.add c key = c.
Proof. intros Hfind. unfold EventCache.add. by rewrite Hfind. Qed.

(** ** The update classifier *)

Section Classifier.

Import PAPI Examples.

Lemma getMessageEvent_new (l : listener) (m : Message.t) :
  getMessageEvent l m = Js.Normal (Some "new-entry")
  <-> EventCache.find (cache l) (Message.guid m) = false.
Proof.
  unfold getMessageEvent.
  destruct (EventCache.find (cache l) (Message.guid m)); simpl.
  - split; [|discriminate].
    destruct (cacheState l !! Message.guid m) as [state|]; [|discriminate].
    destruct (Message.dateCreated m) as [created|]; [|discriminate].
    repeat (case_match; try discriminate).
  - split; reflexivity.
Qed.

Lemma getMessageEvent_snapshot (l : listener) (m : Message.t)
    (created : Z) (state : MessageState) :
  EventCache.find (cache l) (Message.guid m) = true ->
  cacheState l !! Message.guid m = Some state ->
  Message.dateCreated m = Some created ->
  (advanced created m state
   /\ getMessageEvent l m = Js.Normal (Some "updated-entry"))
  \/ (~ advanced created m state /\ getMessageEvent l m = Js.Normal None).
Proof.
  intros Hfind Hstate Hcreated. unfold getMessageEvent, advanced.
  rewrite Hfind, Hstate, Hcreated; simpl.
  repeat (case_match; [left; split; [lia|reflexivity]|]).
  right; split; [lia|reflexivity].
Qed.

(** C2 (as amended).  For every record, [getMessageEvent] answers
    "new-entry" exactly when the guid is not in the dedup cache, and for
    a cached guid without snapshot it answers null; for a cached guid
    with a snapshot and a record whose created timestamp is present, it
    answers "updated-entry" exactly when one of the five tracked
    timestamps (absent delivered, read, edited and retracted counting as
    0) is strictly greater than the snapshot's, and null otherwise. *)
Theorem getMessageEvent_spec (l : listener) (m : Message.t) :
  (getMessageEvent l m = Js.Normal (Some "new-entry")
   <-> EventCache.find (cache l) (Message.guid m) = false)
  /\ (EventCache.find (cache l) (Message.guid m) = true ->
      cacheState l !! Message.guid m = None ->
      getMessageEvent l m = Js.Normal None)
  /\ (forall state created,
      EventCache.find (cache l) (Message.guid m) = true ->
      cacheState l !! Message.guid m = Some state ->
      Message.dateCreated m = Some created ->
      (getMessageEvent l m = Js.Normal (Some "updated-entry")
       <-> advanced created m state)
      /\ (~ advanced created m state -> getMessageEvent l m = Js.Normal None)).
Proof.
  split; [apply getMessageEvent_new|]. split.
  - intros Hfind Hstate. unfold getMessageEvent. by rewrite Hfind, Hstate.
  - intros state created Hfind Hstate Hcreated.
    destruct (getMessageEvent_snapshot l m created state Hfind Hstate Hcreated)
      as [[Hadv Hev]|[Hadv Hev]]; rewrite Hev.
    + split; [tauto|]. intros Hn. by destruct Hn.
    + split; [|reflexivity]. split; [discriminate|].
      intros Ha. by destruct Hadv.
Qed.

Lemma getMessageEvent_spec_witness :
  getMessageEvent seen_listener delivered_record
  = Js.Normal (Some "updated-entry")
  /\ (getMessageEvent seen_listener undated_record
      = Js.Normal (Some "new-entry")
      <-> EventCache.find (cache seen_listener)
            (Message.guid undated_record) = false).
Proof.
  destruct (getMessageEvent_spec seen_listener delivered_record)
    as (_ & _ & Hupd).
  destruct (getMessageEvent_spec seen_listener undated_record)
    as (Hnew & _).
  split; [|exact Hnew].
  apply (Hupd (mkState 1000 0 0 0 0) 1000);
    [reflexivity|reflexivity|reflexivity|].
  unfold advanced; simpl. lia.
Defined.

(** C2, as stated, fails on a record without created timestamp: for a
    cached guid with a snapshot the classifier reads
    [message.dateCreated.getTime()] and raises a TypeError, where the claim
    has it count the absent timestamp as 0 and answer "updated-entry" or
    null. *)
Lemma getMessageEvent_absent_created :
  EventCache.find (cache seen_listener) (Message.guid undated_record) = true
  /\ cacheState seen_listener !! Message.guid undated_record
     = Some (mkState 1000 0 0 0 0)
  /\ time_or_zero (Message.dateDelivered undated_record) > 0
  /\ getMessageEvent seen_listener undated_record = Js.Throw Js.TypeError
  /\ getMessageEvent seen_listener undated_record
     <> Js.Normal (Some "updated-entry")
  /\ getMessageEvent seen_listener undated_record <> Js.Normal None.
Proof.
  repeat split; try reflexivity; try discriminate.
Qed.

End Classifier.

(** ** Processing an event *)

Section Processing.

Import PAPI Examples.

Lemma processMessageEvent_new (l : listener) (r : Message.t) (created : Z) :
  Message.dateCreated r = Some created ->
  EventCache.find (cache l) (Message.guid r) = false ->
  processMessageEvent r l
  = (set_cacheState (<[Message.guid r := snapshot_of created r]> (cacheState l))
       (set_cache (EventCache.add (cache l) (Message.guid r)) l),
     Js.Normal (Some "new-entry")).
Proof.
  intros Hcreated Hfind.
  unfold processMessageEvent. js_unfold.
  unfold getMessageEvent. rewrite Hfind, Hcreated. reflexivity.
Qed.

Lemma not_advanced_self (created : Z) (r : Message.t) :
  ~ advanced created r (snapshot_of created r).
Proof. unfold advanced, snapshot_of; simpl. lia. Qed.

Lemma processMessageEvent_null (l : listener) (r : Message.t) :
  getMessageEvent l r = Js.Normal None ->
  processMessageEvent r l = (l, Js.Normal None).
Proof.
  intros Hev. unfold processMessageEvent. js_unfold. by rewrite Hev.
Qed.

(** C3 (as amended).  For a record whose created timestamp is present and
    whose guid is not in the dedup cache, [processMessageEvent] answers
    "new-entry"; afterwards the cache finds the guid and the snapshot of
    the guid holds the record's timestamps; processing the same record
    again answers null and leaves cache and snapshot (the whole listener)
    as they were. *)
Theorem processMessageEvent_fresh_then_idle
    (l : listener) (r : Message.t) (created : Z)
    (Hcreated : Message.dateCreated r = Some created)
    (Hfresh : EventCache.find (cache l) (Message.guid r) = false) :
  exists l1,
    processMessageEvent r l = (l1, Js.Normal (Some "new-entry"))
    /\ EventCache.find (cache l1) (Message.guid r) = true
    /\ cacheState l1 !! Message.guid r = Some (snapshot_of created r)
    /\ processMessageEvent r l1 = (l1, Js.Normal None).
Proof.
  eexists. split; [by apply processMessageEvent_new|].
  split; [apply EventCache_find_add|].
  split; [apply lookup_insert_eq|].
  apply processMessageEvent_null.
  pose proof (getMessageEvent_snapshot
    (set_cacheState (<[Message.guid r := snapshot_of created r]> (cacheState l))
       (set_cache (EventCache.add (cache l) (Message.guid r)) l))
    r created (snapshot_of created r)) as Hsnap.
  destruct Hsnap as [[Hadv _]|[_ Hev]]; simpl.
  - apply EventCache_find_add.
  - apply lookup_insert_eq.
  - exact Hcreated.
  - by destruct (not_advanced_self created r).
  - exact Hev.
Qed.

Lemma processMessageEvent_fresh_then_idle_witness :
  exists l1,
    processMessageEvent delivered_record (constructed EventCache.empty)
      = (l1, Js.Normal (Some "new-entry"))
    /\ EventCache.find (cache l1) "G1" = true
    /\ cacheState l1 !! "G1" = Some (mkState 1000 1500 0 0 0)
    /\ processMessageEvent delivered_record l1 = (l1, Js.Normal None).
Proof.
  exact (processMessageEvent_fresh_then_idle
           (constructed EventCache.empty) delivered_record 1000
           eq_refl eq_refl).
Defined.

(** C3, as stated, fails on a record without created timestamp: the guid
    enters the cache, then building the snapshot raises a TypeError; no
    "new-entry" is answered and no snapshot is stored. *)
Lemma processMessageEvent_absent_created :
  EventCache.find (cache (constructed EventCache.empty))
    (Message.guid undated_record) = false
  /\ snd (processMessageEvent undated_record (constructed EventCache.empty))
     = Js.Throw Js.TypeError
  /\ cacheState
       (fst (processMessageEvent undated_record (constructed EventCache.empty)))
     !! Message.guid undated_record = None.
Proof. repeat split. Qed.

End Processing.

(** ** Notifications about self-authored messages *)

Section Outgoing.

Import PAPI Examples.

Variable C : collaborators.

(** With the notification's [isSent] set, [newUnsent] is [null] and line
    145 reads its [guid]: the handler raises before it touches the
    listener, the message manager or the emitter. *)
Lemma handleOutgoingMessage_sent (l : listener)
    (messageGUID : string) (isFromMe : bool) :
  handleOutgoingMessage C messageGUID isFromMe true l
  = (l, Js.Throw Js.TypeError).
Proof.
  unfold handleOutgoingMessage, when_flag; simpl. js_unfold. reflexivity.
Qed.

(** Until [notSent] has been assigned, the loop over it raises as well. *)
Lemma handleOutgoingMessage_unassigned (l : listener)
    (messageGUID : string) (isFromMe isSent : bool) :
  notSent l = None ->
  Js.is_throw (snd (handleOutgoingMessage C messageGUID isFromMe isSent l))
  = true
  /\ notSent (fst (handleOutgoingMessage C messageGUID isFromMe isSent l))
     = None.
Proof.
  intros Hns. destruct isSent.
  - rewrite handleOutgoingMessage_sent. by split.
  - unfold handleOutgoingMessage, when_flag; simpl. js_unfold.
    destruct (getMessage C messageGUID) as [u|]; simpl; [|by split].
    rewrite Hns; simpl. by split.
Qed.

(** C1.  A notification about a self-authored message that is sent
    ([isSent], [isFromMe]) makes [onReceiveMessageUpdate] raise a
    TypeError after its two log lines, whatever the record, the listener
    and the collaborators are: nothing is resolved and nothing is
    emitted. *)
Theorem onReceiveMessageUpdate_sent_raises (l : listener)
    (messageGUID : string) :
  onReceiveMessageUpdate C messageGUID true true l
  = (perform (Log messageGUID)
       (perform (Log "MESSAGE UPDATE OBJECT RECEIVED") l),
     Js.Throw Js.TypeError).
Proof.
  unfold onReceiveMessageUpdate, log, mbind, M_bind, Js.bind, Js.modify.
  cbn beta iota.
  by rewrite handleOutgoingMessage_sent.
Qed.

(** The handler has no normal completion at all: past line 161 the
    looked-back record is unsent and error free, so [toEmit] is empty and
    the second loop runs on [[null]]. *)
Lemma handleOutgoingMessage_raises (l : listener)
    (messageGUID : string) (isFromMe isSent : bool) :
  Js.is_throw (snd (handleOutgoingMessage C messageGUID isFromMe isSent l))
  = true.
Proof.
  destruct isSent; [by rewrite handleOutgoingMessage_sent|].
  unfold handleOutgoingMessage, when_flag; simpl. js_unfold.
  destruct (getMessage C messageGUID) as [u|]; simpl; [|done].
  destruct (notSent l) as [pending|]; simpl; [|done].
  destruct (if isNotEmpty_string C (scan_notSent (Message.guid u) pending)
            then getMessage C (scan_notSent (Message.guid u) pending)
            else None) as [lb|]; simpl.
  - destruct (isNotEmpty_message C (Some lb)); simpl;
      destruct (Message.isSent lb); simpl; try done;
      destruct (error_code lb =? 0)%Z eqn:Herr; simpl; try done;
      apply Z.eqb_eq in Herr; rewrite Herr; simpl; done.
  - destruct (isNotEmpty_message C None); done.
Qed.

End Outgoing.

(** The failing input of C1, evaluated: a fresh listener, the store
    holding the sent, error-free record "G1". *)
Example onReceiveMessageUpdate_sent_G1 :
  let run := PAPI.onReceiveMessageUpdate Examples.store_with_G1 "G1" true true
               (PAPI.constructed EventCache.empty) in
  snd run = Js.Throw Js.TypeError
  /\ PAPI.effects (fst run)
     = [PAPI.Log "MESSAGE UPDATE OBJECT RECEIVED"; PAPI.Log "G1"].
Proof. split; reflexivity. Qed.

(** ** The outgoing message matcher *)

Section Matcher.

Import OutgoingMessageManager.

Context {MessagePromise : Type}.
Variable isResolved : MessagePromise -> bool.
Variable isSame : MessagePromise -> Message.t -> bool.

Local Abbreviation candidate := (candidate MessagePromise isResolved isSame).
Local Abbreviation find := (find MessagePromise isResolved isSame).
Local Abbreviation findIndex := (findIndex MessagePromise isResolved isSame).
Local Abbreviation findIndex_from :=
  (findIndex_from MessagePromise isResolved isSame).

Lemma candidate_skip (inc : bool) (m : Message.t) (p : MessagePromise) :
  candidate inc m p
  = if negb inc && isResolved p then false else isSame p m.
Proof.
  unfold OutgoingMessageManager.candidate.
  destruct inc, (isResolved p), (isSame p m); reflexivity.
Qed.

(** The scan from index [i]: either it stops at the first candidate of
    [rest], at offset [k], or [rest] has no candidate. *)
Lemma scan_from (rest : list MessagePromise) (m : Message.t) (inc : bool)
    (i : Z) :
  (exists (k : nat) (p : MessagePromise),
      rest !! k = Some p
      /\ candidate inc m p = true
      /\ (forall (j : nat) (q : MessagePromise),
            (j < k)%nat -> rest !! j = Some q -> candidate inc m q = false)
      /\ find rest m inc = Some p
      /\ findIndex_from i rest m inc = i + Z.of_nat k)
  \/ ((forall q, q ∈ rest -> candidate inc m q = false)
      /\ find rest m inc = None
      /\ findIndex_from i rest m inc = -1).
Proof.
  revert i. induction rest as [|p rest IH]; intros i.
  - right. split; [|by split]. intros q Hq. by apply elem_of_nil in Hq.
  - pose proof (candidate_skip inc m p) as Hp.
    cbn [OutgoingMessageManager.find OutgoingMessageManager.findIndex_from].
    destruct (negb inc && isResolved p) eqn:Hskip.
    + destruct (IH (i + 1))
        as [(k & q & Hk & Hc & Hfirst & Hf & Hi)|(Hnone & Hf & Hi)].
      * left. exists (S k), q. repeat split; try done.
        -- intros [|j] q' Hj Hq'; simpl in Hq'.
           ++ by inversion Hq'; subst.
           ++ apply (Hfirst j); [lia|done].
        -- rewrite Hi. lia.
      * right. repeat split; try done.
        intros q [->|Hq]%elem_of_cons; [done|by apply Hnone].
    + destruct (isSame p m) eqn:Hsame.
      * left. exists 0%nat, p. repeat split; try done.
        -- intros j q Hj. lia.
        -- lia.
      * destruct (IH (i + 1))
          as [(k & q & Hk & Hc & Hfirst & Hf & Hi)|(Hnone & Hf & Hi)].
        -- left. exists (S k), q. repeat split; try done.
           ++ intros [|j] q' Hj Hq'; simpl in Hq'.
              ** by inversion Hq'; subst.
              ** apply (Hfirst j); [lia|done].
           ++ rewrite Hi. lia.
        -- right. repeat split; try done.
           intros q [->|Hq]%elem_of_cons; [done|by apply Hnone].
Qed.

(** C8.  [find] returns the first promise, in insertion order, that is
    the same as the message and is not skipped (a resolved promise is
    skipped unless [includeResolved]); [findIndex] returns the index of
    that promise; [add] puts a promise behind all earlier ones. *)
Theorem find_first_candidate (promises : list MessagePromise)
    (message : Message.t) (includeResolved : bool) :
  match find promises message includeResolved with
  | Some p =>
      exists i : nat,
        findIndex promises message includeResolved = Z.of_nat i
        /\ promises !! i = Some p
        /\ isSame p message = true
        /\ (includeResolved = false -> isResolved p = false)
        /\ (forall (j : nat) (q : MessagePromise),
              (j < i)%nat -> promises !! j = Some q ->
              isSame q message = false
              \/ (includeResolved = false /\ isResolved q = true))
  | None =>
      findIndex promises message includeResolved = -1
      /\ (forall q, q ∈ promises ->
            isSame q message = false
            \/ (includeResolved = false /\ isResolved q = true))
  end
  /\ (forall p : MessagePromise,
        add MessagePromise promises p !! length promises = Some p).
Proof.
  assert (Hcand : forall q, candidate includeResolved message q = false ->
            isSame q message = false
            \/ (includeResolved = false /\ isResolved q = true)).
  { intros q. unfold OutgoingMessageManager.candidate.
    destruct includeResolved, (isResolved q), (isSame q message); simpl; auto. }
  split.
  - unfold OutgoingMessageManager.findIndex.
    destruct (scan_from promises message includeResolved 0)
      as [(k & p & Hk & Hc & Hfirst & Hf & Hi)|(Hnone & Hf & Hi)]; rewrite Hf.
    + exists k. rewrite Hi.
      unfold OutgoingMessageManager.candidate in Hc.
      apply andb_true_iff in Hc as [Hres Hsame].
      split; [lia|]. split; [done|]. split; [done|]. split.
      * intros ->. simpl in Hres. by apply negb_true_iff in Hres.
      * intros j q Hj Hq. apply Hcand. by apply (Hfirst j).
    + split; [done|]. intros q Hq. by apply Hcand, Hnone.
  - intros p. unfold add. by rewrite list_lookup_middle.
Qed.

(** C10.  When no registered promise is both unresolved and the same as
    the record, [find] answers null and [findIndex] answers -1 (both are
    total: they raise nothing). *)
Theorem find_no_match (promises : list MessagePromise) (message : Message.t)
    (Hnone : forall p, p ∈ promises ->
               isResolved p = true \/ isSame p message = false) :
  find promises message false = None
  /\ findIndex promises message false = -1.
Proof.
  unfold OutgoingMessageManager.findIndex.
  destruct (scan_from promises message false 0)
    as [(k & p & Hk & Hc & _)|(_ & Hf & Hi)]; [|by split].
  exfalso. unfold OutgoingMessageManager.candidate in Hc.
  destruct (Hnone p) as [Hr|Hs].
  - apply list_elem_of_lookup. by exists k.
  - rewrite Hr in Hc. discriminate.
  - rewrite Hs in Hc. by rewrite andb_false_r in Hc.
Qed.

End Matcher.

Lemma find_no_match_witness :
  OutgoingMessageManager.find Examples.sample_promise
    Examples.sample_isResolved Examples.sample_isSame
    [("G1", true); ("G7", false)] Examples.delivered_record false = None
  /\ OutgoingMessageManager.findIndex Examples.sample_promise
       Examples.sample_isResolved Examples.sample_isSame
       [("G1", true); ("G7", false)] Examples.delivered_record false = -1.
Proof.
  apply (find_no_match Examples.sample_isResolved Examples.sample_isSame).
  intros p Hp.
  apply elem_of_cons in Hp as [->|Hp]; [left; reflexivity|].
  apply elem_of_cons in Hp as [->|Hp]; [right; reflexivity|].
  by apply elem_of_nil in Hp.
Defined.

(** A resolved promise that is the same as the record is passed over for
    the first unresolved one, unless resolved promises are included. *)
Example find_skips_resolved :
  let promises := [("G1", true); ("G7", false); ("G1", false)] in
  OutgoingMessageManager.findIndex Examples.sample_promise
    Examples.sample_isResolved Examples.sample_isSame
    promises Examples.delivered_record false = 2
  /\ OutgoingMessageManager.findIndex Examples.sample_promise
       Examples.sample_isResolved Examples.sample_isSame
       promises Examples.delivered_record true = 0.
Proof. split; reflexivity. Qed.

(** ** The restart counter of the helper socket *)

Section Restart.

Import Helper.

Lemma starts_perform (e : effect) (s : service) :
  starts (perform e s) = (if is_listen e then S (starts s) else starts s).
Proof.
  unfold starts, perform; simpl.
  rewrite List.filter_app, length_app; simpl.
  destruct (is_listen e); simpl; lia.
Qed.

Lemma starts_stop (s : service) : starts (stop s) = starts s.
Proof.
  unfold stop, log.
  destruct (helper s) eqn:Hh; simpl; rewrite ?Hh; simpl;
    destruct (listening s) eqn:Hl; simpl; rewrite ?Hl; simpl;
    unfold starts; simpl; rewrite ?List.filter_app, ?length_app; simpl; lia.
Qed.

Lemma restartCounter_stop (s : service) :
  restartCounter (stop s) = restartCounter s.
Proof.
  unfold stop, log.
  destruct (helper s) eqn:Hh; simpl; rewrite ?Hh; simpl;
    destruct (listening s) eqn:Hl; simpl; rewrite ?Hl; reflexivity.
Qed.

Lemma starts_start (s : service) : starts (start s) = S (starts s).
Proof.
  unfold start. rewrite starts_perform; simpl.
  unfold log. rewrite starts_perform; simpl.
  change (starts (set_listening false ?s')) with (starts s').
  rewrite starts_perform; simpl. by rewrite starts_stop.
Qed.

Lemma restartCounter_start (s : service) :
  restartCounter (start s) = restartCounter s.
Proof. unfold start; simpl. apply restartCounter_stop. Qed.

(** A failure restarts the server while the counter is at most 5. *)
Lemma onServerError_restarts (err : string) (s : service) :
  restartCounter s <= 5 ->
  starts (onServerError err s) = S (starts s)
  /\ restartCounter (onServerError err s) = restartCounter s + 1.
Proof.
  intros Hle. unfold onServerError; simpl.
  destruct (Z.leb_spec (restartCounter s) 5) as [_|Hgt]; [|lia].
  rewrite starts_start, restartCounter_start; simpl.
  split; [|reflexivity]. f_equal.
  unfold starts, log; simpl.
  rewrite !List.filter_app, !length_app; simpl. lia.
Qed.

(** Above 5 it only logs. *)
Lemma onServerError_gives_up (err : string) (s : service) :
  5 < restartCounter s ->
  onServerError err s
  = log "Max restart count reached for Private API listener..."
      (log err (log "An error occured in the TCP Socket! Restarting" s)).
Proof.
  intros Hgt. unfold onServerError; simpl.
  destruct (Z.leb_spec (restartCounter s) 5) as [Hle|_]; [lia|reflexivity].
Qed.

Lemma failures_S (n : nat) (s : service) :
  failures (S n) s
  = onServerError "Error: listen EADDRINUSE" (failures n s).
Proof. reflexivity. Qed.

Lemma failures_count (n : nat) (s : service) :
  restartCounter s = 0 ->
  starts (failures n s) = (starts s + Nat.min n 6)%nat
  /\ restartCounter (failures n s) = Z.of_nat (Nat.min n 6).
Proof.
  intros H0. induction n as [|n [IHs IHc]]; simpl.
  - split; [lia|by rewrite H0].
  - destruct (decide (n < 6)%nat) as [Hlt|Hge].
    + destruct (onServerError_restarts "Error: listen EADDRINUSE"
                  (failures n s)) as [Hs Hc]; [lia|].
      rewrite Hs, Hc, IHs, IHc. split; lia.
    + rewrite onServerError_gives_up by lia.
      unfold log. rewrite !starts_perform; simpl.
      rewrite IHs, IHc. split; lia.
Qed.

(** C4, on the code.  After a successful [listen] the counter is 0; of
    the failures that follow in a row, each of the first six asks for a
    restart, the sixth included, and the seventh is the first that only
    logs "Max restart count reached". *)
Theorem sixth_failure_restarts (s : service) :
  let up := onListening s in
  restartCounter up = 0
  /\ starts (failures 5 up) = (starts up + 5)%nat
  /\ starts (failures 6 up) = (starts up + 6)%nat
  /\ failures 7 up
     = log "Max restart count reached for Private API listener..."
         (log "Error: listen EADDRINUSE"
            (log "An error occured in the TCP Socket! Restarting"
               (failures 6 up)))
  /\ starts (failures 7 up) = (starts up + 6)%nat.
Proof.
  intros up. assert (H0 : restartCounter up = 0) by reflexivity.
  clearbody up.
  destruct (failures_count 5 up H0) as [H5 _].
  destruct (failures_count 6 up H0) as [H6 C6].
  destruct (failures_count 7 up H0) as [H7 _].
  change (Nat.min 5 6) with 5%nat in H5.
  change (Nat.min 6 6) with 6%nat in H6, C6.
  change (Nat.min 7 6) with 6%nat in H7.
  split; [exact H0|]. split; [exact H5|]. split; [exact H6|].
  split; [|exact H7].
  rewrite (failures_S 6 up).
  apply onServerError_gives_up. rewrite C6. lia.
Qed.

End Restart.

(** ** Debounce of typing indicators *)

Section Typing.

Import Helper.











End Typing.



(** ** Frames of one read *)

Section Frames.

Import Helper Examples.

Variable C : collaborators.

(** A blank line is skipped and the loop goes on. *)
Lemma process_events_blank (now : Z) (event : string) (rest : list string)
    (s : service) :
  blank event = true ->
  process_events C now (event :: rest) s = process_events C now rest s.
Proof. intros Hblank. simpl. by rewrite Hblank. Qed.

(** A decoded frame is dispatched and the loop goes on. *)
Lemma process_events_decoded (now : Z) (event : string) (data : frame)
    (rest : list string) (s : service) :
  blank event = false ->
  JSON_parse C event = JsonValue data ->
  process_events C now (event :: rest) s
  = process_events C now rest
      (dispatch C data now
         (log ("Received data from BlueBubblesHelper: " ++ event) s)).
Proof. intros Hblank Hparse. simpl. by rewrite Hblank, Hparse. Qed.

(** A line [JSON.parse] rejects is logged, and the handler returns:
    whatever follows it in the read is dropped. *)
Lemma process_events_malformed (now : Z) (event : string)
    (rest : list string) (s : service) :
  blank event = false ->
  JSON_parse C event = SyntaxError ->
  process_events C now (event :: rest) s
  = log ("Failed to decode BlueBubblesHelper data! " ++ event)
      (log ("Received data from BlueBubblesHelper: " ++ event) s).
Proof. intros Hblank Hparse. simpl. by rewrite Hblank, Hparse. Qed.

End Frames.

(** C6, on the code.  A read of three lines, the second malformed: the
    update before it is routed, the malformed line is logged, the socket
    is not destroyed, and the typing frame after it is not processed (no
    log line, no emission), though it is processed in the same read
    without the malformed line. *)
Theorem onData_drops_frames_after_malformed :
  let after := Helper.onData Examples.helper_collaborators 7000
                 (Some Examples.burst) Helper.constructed in
  let clean := Helper.onData Examples.helper_collaborators 7000
                 (Some Examples.clean_burst) Helper.constructed in
  Helper.effects after
  = [Helper.Log ("Received data from BlueBubblesHelper: "
                   ++ Examples.update_frame);
     Helper.ReceiveMessageUpdate (Some "G2");
     Helper.Log ("Received data from BlueBubblesHelper: "
                   ++ Examples.malformed_frame);
     Helper.Log ("Failed to decode BlueBubblesHelper data! "
                   ++ Examples.malformed_frame)]
  /\ Helper.typingCache after = ∅
  /\ Helper.effects clean
     = [Helper.Log ("Received data from BlueBubblesHelper: "
                      ++ Examples.update_frame);
        Helper.ReceiveMessageUpdate (Some "G2");
        Helper.Log ("Received data from BlueBubblesHelper: "
                      ++ Examples.typing_frame);
        Helper.EmitTyping 7000 true (Some "G1")].
Proof. vm_compute. repeat split. Qed.

(** ** Responses to transactions *)

Section Transactions.

Import TransactionManager Helper.

Lemma findIndex_from_scan (rest : list TransactionPromise) (id : string)
    (i : Z) :
  (exists (k : nat) (p : TransactionPromise),
      rest !! k = Some p
      /\ transactionId p = id
      /\ findIndex_from i rest id = i + Z.of_nat k)
  \/ ((forall q, q ∈ rest -> transactionId q <> id)
      /\ findIndex_from i rest id = -1).
Proof.
  revert i. induction rest as [|p rest IH]; intros i; simpl.
  - right. split; [|done]. intros q Hq. by apply elem_of_nil in Hq.
  - destruct (bool_decide (transactionId p = id)) eqn:Hp.
    + apply bool_decide_eq_true in Hp.
      left. exists 0%nat, p. repeat split; [done|lia].
    + apply bool_decide_eq_false in Hp.
      destruct (IH (i + 1)) as [(k & q & Hk & Hq & Hi)|[Hnone Hi]].
      * left. exists (S k), q. repeat split; [done|done|lia].
      * right. split; [|done].
        intros q [->|Hq]%elem_of_cons; [done|by apply Hnone].
Qed.

(** With ids that are unique among the outstanding transactions, the
    settled one leaves no entry of its id behind. *)
Lemma settle_removes_id (promises : list TransactionPromise) (k : nat)
    (p : TransactionPromise) :
  NoDup (transactionId <$> promises) ->
  promises !! k = Some p ->
  forall q, q ∈ delete k promises -> transactionId q <> transactionId p.
Proof.
  intros Hnodup Hk q [j Hj]%list_elem_of_lookup_1 Heq.
  assert (Hp : (transactionId <$> promises) !! k = Some (transactionId p)).
  { by rewrite list_lookup_fmap, Hk. }
  destruct (decide (j < k)%nat) as [Hlt|Hge].
  - rewrite list_lookup_delete_lt in Hj by done.
    assert (Hq : (transactionId <$> promises) !! j = Some (transactionId p)).
    { by rewrite list_lookup_fmap, Hj; simpl; rewrite Heq. }
    pose proof (NoDup_lookup _ _ _ _ Hnodup Hp Hq). lia.
  - rewrite list_lookup_delete_ge in Hj by lia.
    assert (Hq : (transactionId <$> promises) !! S j
                 = Some (transactionId p)).
    { by rewrite list_lookup_fmap, Hj; simpl; rewrite Heq. }
    pose proof (NoDup_lookup _ _ _ _ Hnodup Hp Hq). lia.
Qed.

Lemma findIndex_absent (promises : list TransactionPromise) (id : string) :
  (forall q, q ∈ promises -> transactionId q <> id) ->
  findIndex promises id = -1.
Proof.
  intros Hnone. unfold findIndex.
  destruct (findIndex_from_scan promises id 0)
    as [(k & p & Hk & Hp & _)|[_ Hi]]; [|done].
  destruct (Hnone p); [|done]. by apply list_elem_of_lookup_2 with k.
Qed.

Variable C : collaborators.

(** A frame for an id the correlator does not hold changes nothing. *)
Lemma dispatch_unknown_transaction (data : frame) (id : string) (now : Z)
    (s : service) :
  f_transactionId data = Some id ->
  id <> EmptyString ->
  findIndex (transactionManager s) id = -1 ->
  dispatch C data now s = s.
Proof.
  intros Hid Hne Hidx. unfold dispatch. rewrite Hid; simpl.
  rewrite bool_decide_eq_false_2 by done; simpl. by rewrite Hidx.
Qed.

(** C7.  A response frame for a registered transaction settles it
    (rejected when [isNotEmpty(error ?? "")], fulfilled otherwise), once,
    and removes it from the correlator, the other entries staying; a
    second frame with the same transactionId leaves the service as it is
    and settles nothing. *)
Theorem transaction_settled_once (data second : frame) (id : string)
    (now now' : Z) (s : service)
    (Hid : f_transactionId data = Some id)
    (Hnonempty : id <> EmptyString)
    (Hsecond : f_transactionId second = Some id)
    (Hunique : NoDup (transactionId <$> transactionManager s))
    (Hregistered : id ∈ transactionId <$> transactionManager s) :
  let result :=
    if isNotEmpty C (default EmptyString (f_error data))
    then Rejected (f_error data)
    else Fulfilled (f_identifier data) (f_data data) in
  let s1 := dispatch C data now s in
  effects s1 = (effects s ++ [Settled id result])%list
  /\ (exists (k : nat) (p : TransactionPromise),
        transactionManager s !! k = Some p
        /\ transactionId p = id
        /\ transactionManager s1 = delete k (transactionManager s))
  /\ (id ∉ transactionId <$> transactionManager s1)
  /\ findIndex (transactionManager s1) id = -1
  /\ dispatch C second now' s1 = s1.
Proof.
  intros result s1.
  destruct (findIndex_from_scan (transactionManager s) id 0)
    as [(k & p & Hk & Hp & Hi)|[Hnone _]].
  2: { apply list_elem_of_fmap in Hregistered as (q & Hq & Hin).
       by destruct (Hnone q Hin). }
  assert (Hs1 : s1 = perform (Settled id result)
                       (set_transactionManager
                          (delete k (transactionManager s)) s)).
  { unfold s1, dispatch. rewrite Hid; simpl.
    rewrite bool_decide_eq_false_2 by done; simpl.
    unfold findIndex. rewrite Hi.
    destruct (Z.geb_spec (0 + Z.of_nat k) 0) as [_|Hneg]; [|lia].
    unfold settle. by replace (Z.to_nat (0 + Z.of_nat k)) with k by lia. }
  clearbody s1. subst s1; simpl.
  assert (Hgone : forall q, q ∈ delete k (transactionManager s) ->
                    transactionId q <> id).
  { intros q Hq. rewrite <- Hp.
    by apply (settle_removes_id (transactionManager s) k p). }
  split; [done|]. split; [by exists k, p|].
  split.
  { intros (q & Hq & Hin)%list_elem_of_fmap. by destruct (Hgone q Hin). }
  split; [by apply findIndex_absent|].
  apply dispatch_unknown_transaction with id; [done|done|].
  by apply findIndex_absent.
Qed.

End Transactions.

Lemma transaction_settled_once_witness :
  let s1 := Helper.dispatch Examples.helper_collaborators
              (Helper.mkFrame (Some "T1") (Some "G9") None None None None)
              7000 Examples.awaiting_T1 in
  Helper.effects s1
  = [Helper.Settled "T1" (TransactionManager.Fulfilled (Some "G9") None)]
  /\ Helper.transactionManager s1 = [TransactionManager.mkPromise "T0" "chat"]
  /\ Helper.dispatch Examples.helper_collaborators
       (Helper.mkFrame (Some "T1") None None (Some "late") None None)
       9000 s1 = s1.
Proof.
  destruct (transaction_settled_once Examples.helper_collaborators
              (Helper.mkFrame (Some "T1") (Some "G9") None None None None)
              (Helper.mkFrame (Some "T1") None None (Some "late") None None)
              "T1" 7000 9000 Examples.awaiting_T1)
    as (Heff & _ & _ & _ & Hnoop).
  - reflexivity.
  - discriminate.
  - reflexivity.
  - apply (bool_decide_unpack _). vm_compute. exact I.
  - apply (bool_decide_unpack _). vm_compute. exact I.
  - split; [exact Heff|]. split; [reflexivity|exact Hnoop].
Defined.

(** ** Polling for incoming messages *)

Section Polling.

Import IncomingMessageListener.

Variable C : collaborators.

Lemma EventCache_find_add_iff (c : EventCache.t) (key k : string) :
  EventCache.find (EventCache.add c key) k = true
  <-> EventCache.find c k = true \/ k = key.
Proof.
  unfold EventCache.add.
  destruct (EventCache.find c key) eqn:Hkey.
  - split; [by left|]. intros [Hk| ->]; done.
  - unfold EventCache.find; simpl.
    rewrite !bool_decide_eq_true, elem_of_app, list_elem_of_singleton.
    done.
Qed.

(** The keys the cache finds after a prefix of the rows: those it found
    before, and the keys of the prefix. *)
Lemma forEach_cache (pre : list Message.t) (l : listener) (k : string) :
  EventCache.find (cache (foldl (forEach_entry C) l pre)) k = true
  <-> EventCache.find (cache l) k = true \/ k ∈ getCacheName C <$> pre.
Proof.
  revert l. induction pre as [|entry pre IH]; intros l; simpl.
  - split; [by left|]. intros [Hk|Hk]; [done|]. by apply elem_of_nil in Hk.
  - rewrite IH, elem_of_cons. unfold forEach_entry.
    destruct (EventCache.find (cache l) (getCacheName C entry)) eqn:Hfind;
      simpl.
    + split; [tauto|]. intros [Hk|[->|Hk]]; tauto.
    + rewrite EventCache_find_add_iff. tauto.
Qed.

(** C9.  [getEntries] asks the repository for the window from
    [after - 15000] ms to [before], with the one condition
    [message.is_from_me = 0]; then, row by row, a row whose cache key the
    cache does not find yet (neither from before the poll nor from an
    earlier row of it) has its key added and is then emitted as
    "new-entry", and a row whose key is found causes nothing. *)
Theorem getEntries_polls_incoming (after_ before_ : Z) (l : listener) :
  let params := getEntries_params after_ before_ in
  let listed := perform (Log "Last processing time was: ")
                  (perform (GetMessages params) l) in
  (after params = after_ - 15000
   /\ before params = before_
   /\ where_ params = [mkWhere "message.is_from_me = :fromMe" [("fromMe", 0)]])
  /\ getEntries C after_ before_ l
     = foldl (forEach_entry C) listed (getMessages C params)
  /\ forall (pre post : list Message.t) (entry : Message.t),
       getMessages C params = (pre ++ entry :: post)%list ->
       let key := getCacheName C entry in
       let at_row := foldl (forEach_entry C) listed pre in
       let known := EventCache.find (cache l) key = true
                    \/ key ∈ getCacheName C <$> pre in
       getEntries C after_ before_ l
       = foldl (forEach_entry C) (forEach_entry C at_row entry) post
       /\ (~ known ->
           effects (forEach_entry C at_row entry)
           = (effects at_row ++ [CacheAdd key; Emit "new-entry" entry])%list
           /\ cache (forEach_entry C at_row entry)
              = EventCache.add (cache at_row) key)
       /\ (known -> forEach_entry C at_row entry = at_row).
Proof.
  intros params listed. split; [by repeat split|]. split; [reflexivity|].
  intros pre post entry Hrows key at_row known.
  assert (Hknown : EventCache.find (cache at_row) key = true <-> known).
  { unfold at_row, known. by rewrite forEach_cache. }
  split; [|split].
  - unfold getEntries. fold params. rewrite Hrows, foldl_app. reflexivity.
  - intros Hnew. unfold forEach_entry. fold key.
    destruct (EventCache.find (cache at_row) key); [tauto|]. simpl.
    split; [|reflexivity]. by rewrite <- app_assoc.
  - intros Hold. unfold forEach_entry. fold key.
    by rewrite (proj2 Hknown Hold).
Qed.

End Polling.

(** * Further properties *)

(** ** The matcher: registration order and the two lookups *)

Section MatcherOrder.

Import OutgoingMessageManager.

Context {MessagePromise : Type}.
Variable isResolved : MessagePromise -> bool.
Variable isSame : MessagePromise -> Message.t -> bool.

Local Abbreviation candidate := (candidate MessagePromise isResolved isSame).
Local Abbreviation find := (find MessagePromise isResolved isSame).
Local Abbreviation findIndex := (findIndex MessagePromise isResolved isSame).
Local Abbreviation findIndex_from :=
  (findIndex_from MessagePromise isResolved isSame).

Lemma find_app_one (rest : list MessagePromise) (p : MessagePromise)
    (m : Message.t) (inc : bool) :
  find (rest ++ [p])%list m inc
  = match find rest m inc with
    | Some q => Some q
    | None => if candidate inc m p then Some p else None
    end.
Proof.
  induction rest as [|q rest IH]; simpl.
  - rewrite (candidate_skip isResolved isSame).
    destruct (negb inc && isResolved p); [done|]. by destruct (isSame p m).
  - destruct (negb inc && isResolved q); [done|]. by destruct (isSame q m).
Qed.

Lemma findIndex_from_app_one (rest : list MessagePromise)
    (p : MessagePromise) (m : Message.t) (inc : bool) (i : Z) :
  findIndex_from i (rest ++ [p])%list m inc
  = match find rest m inc with
    | Some _ => findIndex_from i rest m inc
    | None =>
        if candidate inc m p then i + Z.of_nat (length rest) else -1
    end.
Proof.
  revert i. induction rest as [|q rest IH]; intros i; simpl.
  - rewrite (candidate_skip isResolved isSame).
    destruct (negb inc && isResolved p); [done|].
    destruct (isSame p m); [lia|done].
  - destruct (negb inc && isResolved q).
    + rewrite IH. destruct (find rest m inc); [done|].
      destruct (candidate inc m p); [lia|done].
    + destruct (isSame q m); [done|].
      rewrite IH. destruct (find rest m inc); [done|].
      destruct (candidate inc m p); [lia|done].
Qed.

(** X1.  Registering a promise never changes an existing match: after
    [add], [find] and [findIndex] answer as before when there was a
    match, and otherwise answer the new promise (at the old length) if it
    is a candidate, and no match if it is not. *)
Theorem find_after_add (promises : list MessagePromise)
    (p : MessagePromise) (message : Message.t) (includeResolved : bool) :
  find (add MessagePromise promises p) message includeResolved
  = match find promises message includeResolved with
    | Some q => Some q
    | None => if candidate includeResolved message p then Some p else None
    end
  /\ findIndex (add MessagePromise promises p) message includeResolved
     = match find promises message includeResolved with
       | Some _ => findIndex promises message includeResolved
       | None =>
           if candidate includeResolved message p
           then Z.of_nat (length promises) else -1
       end.
Proof.
  unfold add, OutgoingMessageManager.findIndex. split.
  - apply find_app_one.
  - rewrite findIndex_from_app_one.
    destruct (find promises message includeResolved); [done|].
    by destruct (candidate includeResolved message p).
Qed.

(** X2.  The two lookups agree: [findIndex] lies between -1 and the last
    index, and [find] is [null] when it is -1 and the promise at that
    index otherwise. *)
Theorem findIndex_agrees_with_find (promises : list MessagePromise)
    (message : Message.t) (includeResolved : bool) :
  -1 <= findIndex promises message includeResolved
     < Z.of_nat (length promises)
  /\ find promises message includeResolved
     = if (findIndex promises message includeResolved <? 0)%Z then None
       else promises !! Z.to_nat (findIndex promises message includeResolved).
Proof.
  unfold OutgoingMessageManager.findIndex.
  destruct (scan_from isResolved isSame promises message includeResolved 0)
    as [(k & p & Hk & _ & _ & Hf & Hi)|(_ & Hf & Hi)]; rewrite Hf, Hi.
  - apply lookup_lt_Some in Hk as Hlt.
    destruct (Z.ltb_spec (0 + Z.of_nat k) 0); [lia|].
    replace (Z.to_nat (0 + Z.of_nat k)) with k by lia.
    split; [lia|done].
  - split; [lia|done].
Qed.

(** X3.  Including resolved promises can only move the match towards
    older registrations: if the default lookup matches at an index, the
    lookup with [includeResolved] matches at that index or before it. *)
Theorem includeResolved_matches_earlier (promises : list MessagePromise)
    (message : Message.t) :
  findIndex promises message false = -1
  \/ 0 <= findIndex promises message true
          <= findIndex promises message false.
Proof.
  unfold OutgoingMessageManager.findIndex.
  destruct (scan_from isResolved isSame promises message false 0)
    as [(k & p & Hk & Hc & _ & _ & Hi)|(_ & _ & Hi)]; [|by left].
  right. rewrite Hi.
  assert (Hc' : candidate true message p = true).
  { unfold OutgoingMessageManager.candidate in *.
    apply andb_true_iff in Hc as [_ ->]. done. }
  destruct (scan_from isResolved isSame promises message true 0)
    as [(k' & p' & _ & _ & Hfirst & _ & Hi')|(Hnone & _ & _)].
  - rewrite Hi'. destruct (decide (k' <= k)%nat) as [Hle|Hgt]; [lia|].
    rewrite (Hfirst k p) in Hc'; [done|lia|done].
  - rewrite Hnone in Hc'; [done|]. by apply list_elem_of_lookup_2 with k.
Qed.

End MatcherOrder.

(** ** Cache maintenance of the update listener *)

Section Maintenance.

Import PAPI.

Lemma checkCache_small (now : Z) (l : listener) :
  EventCache.size (cache l) <= 250 ->
  cache (checkCache now l) = cache l.
Proof.
  intros Hsize. unfold checkCache.
  destruct (Z.gtb_spec (EventCache.size (cache l)) 250); [lia|done].
Qed.

Lemma checkCache_snapshot (now : Z) (l : listener) (g : string) :
  cacheState (checkCache now l) !! g
  = match cacheState l !! g with
    | Some st =>
        if decide (st_dateCreated st < now - 300000) then None else Some st
    | None => None
    end.
Proof.
  unfold checkCache.
  assert (Hsame : forall l' : listener,
            cacheState l' = cacheState l ->
            cacheState
              (set_cacheState
                 (filter (fun entry : string * MessageState =>
                            ~ (st_dateCreated (snd entry)
                               < now - 5 * 60 * 1000))
                    (cacheState l')) l') !! g
            = match cacheState l !! g with
              | Some st =>
                  if decide (st_dateCreated st < now - 300000)
                  then None else Some st
              | None => None
              end).
  { intros l' ->. simpl. rewrite map_lookup_filter.
    destruct (cacheState l !! g) as [st|]; simpl; [|done].
    destruct (decide (st_dateCreated st < now - 300000)) as [Hold|Hnew].
    - rewrite option_guard_False; [done|]. simpl. lia.
    - rewrite option_guard_True; [done|]. simpl. lia. }
  apply Hsame.
  destruct (EventCache.size (cache l) >? 250)%Z; [|done].
  by destruct (EventCache.size (cache l) >? 0)%Z.
Qed.

(** X4.  While the dedup cache holds at most 250 keys, maintenance does
    not change how a record is classified, provided the snapshot of its
    guid (if any) was created within the last five minutes. *)
Theorem checkCache_keeps_classification (now : Z) (l : listener)
    (m : Message.t)
    (Hsize : EventCache.size (cache l) <= 250)
    (Hrecent : forall st, cacheState l !! Message.guid m = Some st ->
                 now - 300000 <= st_dateCreated st) :
  getMessageEvent (checkCache now l) m = getMessageEvent l m.
Proof.
  unfold getMessageEvent.
  rewrite checkCache_small by done. rewrite checkCache_snapshot.
  destruct (cacheState l !! Message.guid m) as [st|] eqn:Hst; [|done].
  specialize (Hrecent st eq_refl).
  destruct (decide (st_dateCreated st < now - 300000)); [lia|done].
Qed.

(** X5.  A snapshot created more than five minutes ago is evicted while
    its guid stays in the dedup cache; from then on every record of that
    guid, whatever its timestamps, is classified as no event and
    processing it changes nothing. *)
Theorem checkCache_mutes_old_message (now : Z) (l : listener)
    (m : Message.t) (st : MessageState)
    (Hsize : EventCache.size (cache l) <= 250)
    (Hseen : EventCache.find (cache l) (Message.guid m) = true)
    (Hsnapshot : cacheState l !! Message.guid m = Some st)
    (Hold : st_dateCreated st < now - 300000) :
  cacheState (checkCache now l) !! Message.guid m = None
  /\ processMessageEvent m (checkCache now l)
     = (checkCache now l, Js.Normal None).
Proof.
  assert (Hgone : cacheState (checkCache now l) !! Message.guid m = None).
  { rewrite checkCache_snapshot, Hsnapshot.
    destruct (decide (st_dateCreated st < now - 300000)); [done|lia]. }
  split; [done|].
  apply processMessageEvent_null. unfold getMessageEvent.
  rewrite checkCache_small by done. by rewrite Hseen, Hgone.
Qed.

(** X6.  After [start], and after a maintenance run that finds more than
    250 keys in the dedup cache, every record is classified "new-entry",
    also one that was emitted before. *)
Theorem purged_cache_reemits (now : Z) (l : listener) (m : Message.t) :
  getMessageEvent (start l) m = Js.Normal (Some "new-entry")
  /\ (250 < EventCache.size (cache l) ->
      getMessageEvent (checkCache now l) m = Js.Normal (Some "new-entry")).
Proof.
  split.
  - by apply getMessageEvent_new.
  - intros Hbig. apply getMessageEvent_new. unfold checkCache.
    destruct (Z.gtb_spec (EventCache.size (cache l)) 250); [|lia].
    destruct (Z.gtb_spec (EventCache.size (cache l)) 0); [done|lia].
Qed.

End Maintenance.

Lemma checkCache_keeps_classification_witness :
  PAPI.getMessageEvent (PAPI.checkCache 2000 Examples.seen_listener)
    Examples.delivered_record
  = PAPI.getMessageEvent Examples.seen_listener Examples.delivered_record.
Proof.
  apply checkCache_keeps_classification.
  - vm_compute. discriminate.
  - intros st Hst. vm_compute in Hst. injection Hst as <-. simpl. lia.
Defined.

Lemma checkCache_mutes_old_message_witness :
  PAPI.cacheState (PAPI.checkCache 400000 Examples.seen_listener)
    !! "G1" = None
  /\ PAPI.processMessageEvent Examples.delivered_record
       (PAPI.checkCache 400000 Examples.seen_listener)
     = (PAPI.checkCache 400000 Examples.seen_listener, Js.Normal None).
Proof.
  apply (checkCache_mutes_old_message 400000 Examples.seen_listener
           Examples.delivered_record (PAPI.mkState 1000 0 0 0 0)).
  - vm_compute. discriminate.
  - reflexivity.
  - reflexivity.
  - simpl. lia.
Defined.

(** ** Notifications, by direction *)

Section Notifications.

Import PAPI.

Variable C : collaborators.

Lemma effects_perform (e : effect) (l : listener) :
  effects (perform e l) = (effects l ++ [e])%list.
Proof. reflexivity. Qed.

Lemma onReceiveMessageUpdate_incoming (l : listener)
    (messageGUID : string) (isSent : bool) :
  onReceiveMessageUpdate C messageGUID isSent false l
  = match getMessage C messageGUID with
    | None => (announced messageGUID l, Js.Throw Js.TypeError)
    | Some m =>
        match processMessageEvent m (announced messageGUID l) with
        | (l', Js.Normal (Some ev)) =>
            (perform (Emit ev (Some "incoming-message") m) l', Js.Normal tt)
        | (l', Js.Normal None) => (l', Js.Normal tt)
        | (l', Js.Throw e) => (l', Js.Throw e)
        end
    end.
Proof.
  unfold onReceiveMessageUpdate, log, emit, mbind, M_bind, Js.bind,
    Js.modify, Js.deref, Js.ret, Js.throw.
  cbn beta iota. fold (announced messageGUID l).
  destruct (getMessage C messageGUID) as [m|]; [|done].
  destruct (processMessageEvent m (announced messageGUID l))
    as [l' [[ev|]|e]]; done.
Qed.

(** X7.  A notification about a message of someone else, whose record is
    in the store with a created timestamp and whose guid is new to the
    dedup cache, is emitted once as "new-entry" from "incoming-message";
    the same notification again only logs. *)
Theorem incoming_update_emitted_once (l : listener)
    (messageGUID : string) (isSent : bool) (m : Message.t) (created : Z)
    (Hstored : getMessage C messageGUID = Some m)
    (Hcreated : Message.dateCreated m = Some created)
    (Hfresh : EventCache.find (cache l) (Message.guid m) = false) :
  exists l1 l2,
    onReceiveMessageUpdate C messageGUID isSent false l
      = (l1, Js.Normal tt)
    /\ effects l1
       = (effects l
            ++ [Log "MESSAGE UPDATE OBJECT RECEIVED"; Log messageGUID;
                Emit "new-entry" (Some "incoming-message") m])%list
    /\ onReceiveMessageUpdate C messageGUID isSent false l1
       = (l2, Js.Normal tt)
    /\ effects l2
       = (effects l1
            ++ [Log "MESSAGE UPDATE OBJECT RECEIVED"; Log messageGUID])%list
    /\ cache l2 = cache l1
    /\ cacheState l2 = cacheState l1.
Proof.
  rewrite onReceiveMessageUpdate_incoming, Hstored.
  rewrite (processMessageEvent_new (announced messageGUID l) m created)
    by done.
  eexists. eexists. split; [reflexivity|].
  split; [simpl; by rewrite <- !app_assoc|].
  rewrite onReceiveMessageUpdate_incoming, Hstored.
  rewrite processMessageEvent_null.
  - split; [reflexivity|]. split; [simpl; by rewrite <- !app_assoc|done].
  - pose proof (getMessageEvent_snapshot
      (announced messageGUID
         (perform (Emit "new-entry" (Some "incoming-message") m)
            (set_cacheState
               (<[Message.guid m := snapshot_of created m]>
                  (cacheState (announced messageGUID l)))
               (set_cache
                  (EventCache.add (cache (announced messageGUID l))
                     (Message.guid m))
                  (announced messageGUID l)))))
      m created (snapshot_of created m)) as Hsnap.
    destruct Hsnap as [[Hadv _]|[_ Hev]]; simpl.
    + apply EventCache_find_add.
    + apply lookup_insert_eq.
    + exact Hcreated.
    + by destruct (not_advanced_self created m).
    + exact Hev.
Qed.

(** X8.  A notification about a guid the store does not know raises a
    TypeError after the two log lines; nothing is emitted and the caches
    are left alone. *)
Theorem incoming_unknown_guid_raises (l : listener)
    (messageGUID : string) (isSent : bool)
    (Hunknown : getMessage C messageGUID = None) :
  onReceiveMessageUpdate C messageGUID isSent false l
  = (announced messageGUID l, Js.Throw Js.TypeError).
Proof. by rewrite onReceiveMessageUpdate_incoming, Hunknown. Qed.

Lemma processMessageEvent_effects (m : Message.t) (l : listener) :
  effects (fst (processMessageEvent m l)) = effects l.
Proof.
  unfold processMessageEvent, mbind, M_bind, Js.bind, Js.get, Js.lift,
    Js.modify, Js.deref, Js.ret, Js.throw.
  cbn beta iota.
  destruct (getMessageEvent l m) as [[ev|]|e]; [|done|done].
  destruct (bool_decide (ev = "new-entry"));
    destruct (Message.dateCreated m); done.
Qed.

(** X9.  A notification about a message of someone else never calls the
    message manager: besides the two log lines it adds at most one [Emit],
    from "incoming-message", of the record the store gave. *)
Theorem incoming_update_never_resolves (l : listener)
    (messageGUID : string) (isSent : bool) :
  let after := fst (onReceiveMessageUpdate C messageGUID isSent false l) in
  effects after = effects (announced messageGUID l)
  \/ exists ev m,
       getMessage C messageGUID = Some m
       /\ effects after
          = (effects (announced messageGUID l)
               ++ [Emit ev (Some "incoming-message") m])%list.
Proof.
  intros after. unfold after. rewrite onReceiveMessageUpdate_incoming.
  destruct (getMessage C messageGUID) as [m|]; [|by left].
  pose proof (processMessageEvent_effects m (announced messageGUID l)) as He.
  destruct (processMessageEvent m (announced messageGUID l))
    as [l' [[ev|]|e]]; simpl in *.
  - right. exists ev, m. by rewrite He.
  - by left.
  - by left.
Qed.

(** X10.  A notification about a self-authored message, sent or not,
    always ends in a TypeError; it adds log lines only (nothing is
    resolved, rejected or emitted) and leaves dedup cache and snapshots
    as they were. *)
Theorem outgoing_update_only_logs (l : listener)
    (messageGUID : string) (isSent : bool) :
  let run := onReceiveMessageUpdate C messageGUID isSent true l in
  Js.is_throw (snd run) = true
  /\ cache (fst run) = cache l
  /\ cacheState (fst run) = cacheState l
  /\ exists logs,
       effects (fst run) = (effects l ++ logs)%list
       /\ forallb is_log logs = true.
Proof.
  intros run. unfold run, onReceiveMessageUpdate, log, mbind, M_bind,
    Js.bind, Js.modify.
  cbn beta iota. fold (announced messageGUID l).
  assert (Hin : forall l0 : listener,
            let r := handleOutgoingMessage C messageGUID true isSent l0 in
            Js.is_throw (snd r) = true
            /\ cache (fst r) = cache l0
            /\ cacheState (fst r) = cacheState l0
            /\ exists logs,
                 effects (fst r) = (effects l0 ++ logs)%list
                 /\ forallb is_log logs = true).
  { intros l0 r. unfold r. clear r.
    destruct isSent.
    { rewrite handleOutgoingMessage_sent. repeat split.
      exists []. by rewrite app_nil_r. }
    unfold handleOutgoingMessage, when_flag, log; simpl. js_unfold.
    destruct (getMessage C messageGUID) as [u|]; simpl.
    2: { repeat split. exists []. by rewrite app_nil_r. }
    destruct (notSent l0) as [pending|]; simpl.
    2: { repeat split. by eexists [_]. }
    destruct (if isNotEmpty_string C (scan_notSent (Message.guid u) pending)
              then getMessage C (scan_notSent (Message.guid u) pending)
              else None) as [lb|]; simpl.
    - destruct (isNotEmpty_message C (Some lb)); simpl;
        destruct (Message.isSent lb); simpl;
        destruct (error_code lb =? 0)%Z eqn:Herr; simpl;
        try (apply Z.eqb_eq in Herr; rewrite Herr; simpl);
        repeat split;
        first [ by eexists [_]
              | by (eexists [_; _]; rewrite <- app_assoc) ].
    - destruct (isNotEmpty_message C None); simpl; repeat split;
        by eexists [_]. }
  destruct (Hin (announced messageGUID l))
    as (Hthrow & Hc & Hs & logs & He & Hl).
  destruct (handleOutgoingMessage C messageGUID true isSent
              (announced messageGUID l)) as [l' [[]|e]]; simpl in *;
    [done|].
  repeat split; try done.
  exists ([Log "MESSAGE UPDATE OBJECT RECEIVED"; Log messageGUID] ++ logs)%list.
  split; [by rewrite He, <- !app_assoc|exact Hl].
Qed.

End Notifications.

Lemma incoming_update_emitted_once_witness :
  exists l1 l2,
    PAPI.onReceiveMessageUpdate Examples.store_with_G1 "G1" true false
      (PAPI.constructed EventCache.empty) = (l1, Js.Normal tt)
    /\ PAPI.effects l1
       = [PAPI.Log "MESSAGE UPDATE OBJECT RECEIVED"; PAPI.Log "G1";
          PAPI.Emit "new-entry" (Some "incoming-message")
            Examples.delivered_record]
    /\ PAPI.onReceiveMessageUpdate Examples.store_with_G1 "G1" true false l1
       = (l2, Js.Normal tt)
    /\ PAPI.effects l2
       = (PAPI.effects l1
            ++ [PAPI.Log "MESSAGE UPDATE OBJECT RECEIVED";
                PAPI.Log "G1"])%list
    /\ PAPI.cache l2 = PAPI.cache l1
    /\ PAPI.cacheState l2 = PAPI.cacheState l1.
Proof.
  exact (incoming_update_emitted_once Examples.store_with_G1
           (PAPI.constructed EventCache.empty) "G1" true
           Examples.delivered_record 1000 eq_refl eq_refl eq_refl).
Defined.

Lemma incoming_unknown_guid_raises_witness :
  PAPI.onReceiveMessageUpdate Examples.store_with_G1 "G404" false false
    (PAPI.constructed EventCache.empty)
  = (PAPI.announced "G404" (PAPI.constructed EventCache.empty),
     Js.Throw Js.TypeError).
Proof.
  exact (incoming_unknown_guid_raises Examples.store_with_G1
           (PAPI.constructed EventCache.empty) "G404" false eq_refl).
Defined.

(** ** Server events over time *)

Section ServerEvents.

Import Helper.

Lemma onServerError_capped (err : string) (s : service) :
  5 < restartCounter s ->
  starts (onServerError err s) = starts s
  /\ restartCounter (onServerError err s) = restartCounter s.
Proof.
  intros Hgt. rewrite onServerError_gives_up by done.
  unfold log. by rewrite !starts_perform.
Qed.

Lemma on_server_events_budget (es : list server_event) (s : service) :
  0 <= restartCounter s <= 6 ->
  0 <= restartCounter (on_server_events s es) <= 6
  /\ Z.of_nat (starts (on_server_events s es))
       - restartCounter (on_server_events s es)
     <= Z.of_nat (starts s) - restartCounter s
        + 6 * Z.of_nat (listenings es).
Proof.
  revert s. induction es as [|e es IH]; intros s Hrc.
  - unfold listenings; simpl. lia.
  - change (on_server_events s (e :: es))
      with (on_server_events (on_server_event s e) es).
    destruct e as [err|].
    + change (listenings (ServerError err :: es)) with (listenings es).
      destruct (decide (restartCounter s <= 5)) as [Hle|Hgt].
      * destruct (onServerError_restarts err s Hle) as [Hs Hc].
        destruct (IH (on_server_event s (ServerError err))) as [Hb Hp];
          simpl; [lia|].
        simpl in Hb, Hp. rewrite Hs, Hc in Hp. split; [done|lia].
      * destruct (onServerError_capped err s) as [Hs Hc]; [lia|].
        destruct (IH (on_server_event s (ServerError err))) as [Hb Hp];
          simpl; [lia|].
        simpl in Hb, Hp. rewrite Hs, Hc in Hp. split; [done|lia].
    + change (listenings (ServerListening :: es)) with (S (listenings es)).
      destruct (IH (on_server_event s ServerListening)) as [Hb Hp];
        [simpl; lia|].
      split; [done|].
      change (starts (on_server_event s ServerListening))
        with (starts s) in Hp.
      change (restartCounter (on_server_event s ServerListening))
        with 0 in Hp.
      lia.
Qed.

(** X11.  Whatever errors and successful listens follow the
    construction of the service, the restart counter stays between 0 and
    6, and the restarts asked for number at most 6 for the start and 6
    more for every successful listen. *)
Theorem restarts_bounded (es : list server_event) :
  let s := on_server_events constructed es in
  0 <= restartCounter s <= 6
  /\ (starts s <= 6 + 6 * listenings es)%nat.
Proof.
  intros s.
  destruct (on_server_events_budget es constructed) as [Hb Hp];
    [simpl; lia|].
  fold s in Hb, Hp. split; [done|].
  change (starts constructed) with 0%nat in Hp.
  change (restartCounter constructed) with 0 in Hp. lia.
Qed.

Lemma stop_fields (s : service) :
  helper (stop s) = false
  /\ listening (stop s) = false
  /\ transactionManager (stop s) = transactionManager s
  /\ typingCache (stop s) = typingCache s.
Proof.
  unfold stop, log.
  destruct (helper s) eqn:Hh; simpl; rewrite ?Hh; simpl;
    destruct (listening s) eqn:Hl; simpl; rewrite ?Hl; done.
Qed.

Lemma start_fields (s : service) :
  helper (start s) = false
  /\ listening (start s) = false
  /\ transactionManager (start s) = transactionManager s
  /\ typingCache (start s) = typingCache s.
Proof.
  destruct (stop_fields s) as (Hh & _ & Ht & Hc).
  unfold start, log; simpl. by rewrite Hh, Ht, Hc.
Qed.

(** X12.  Failures and restarts of the server never touch the
    correlator or the typing cache: the transactions outstanding before
    any run of server events are outstanding after it, unsettled. *)
Theorem server_events_keep_transactions (es : list server_event)
    (s : service) :
  transactionManager (on_server_events s es) = transactionManager s
  /\ typingCache (on_server_events s es) = typingCache s.
Proof.
  revert s. induction es as [|e es IH]; intros s; [done|].
  change (on_server_events s (e :: es))
    with (on_server_events (on_server_event s e) es).
  destruct (IH (on_server_event s e)) as [-> ->].
  destruct e as [err|]; simpl; [|done].
  unfold onServerError.
  destruct (restartCounter _ <=? 5)%Z; [|done].
  destruct (start_fields
              (set_restartCounter
                 (restartCounter
                    (log err
                       (log "An error occured in the TCP Socket! Restarting"
                          s)) + 1)
                 (log err
                    (log "An error occured in the TCP Socket! Restarting" s))))
    as (_ & _ & -> & ->).
  done.
Qed.

(** X13.  [stop] leaves no socket and no listening server, and stopping
    a stopped service only writes its log line. *)
Theorem stop_twice (s : service) :
  helper (stop s) = false
  /\ listening (stop s) = false
  /\ stop (stop s) = log "Stopping Private API Helper..." (stop s).
Proof.
  destruct (stop_fields s) as (Hh & Hl & _).
  split; [done|]. split; [done|].
  unfold stop, log.
  destruct (helper s) eqn:Hh', (listening s) eqn:Hl';
    repeat (progress (cbn; rewrite ?Hh', ?Hl')); reflexivity.
Qed.

End ServerEvents.

(** ** Framing of a read *)

Section Framing.

Import Helper.

Lemma split_lines_cons (raw : string) :
  exists line lines, split_lines raw = line :: lines.
Proof.
  destruct raw as [|c raw]; simpl; [by eexists _, _|].
  destruct (Ascii.eqb c "010"%char); [by eexists _, _|].
  destruct (split_lines raw); by eexists _, _.
Qed.

Lemma split_lines_app (a b : string) :
  split_lines (a ++ String "010"%char b)
  = (split_lines a ++ split_lines b)%list.
Proof.
  induction a as [|c a IH]; simpl; [done|].
  destruct (Ascii.eqb c "010"%char); [by rewrite IH|].
  rewrite IH. destruct (split_lines_cons a) as (line & lines & ->). done.
Qed.


Lemma join_lines_cons (line : string) (lines : list string) :
  join_lines (line :: lines)
  = match lines with
    | [] => line
    | _ => line ++ String "010"%char (join_lines lines)
    end.
Proof. by destruct lines. Qed.

(** X14.  A read is cut at its line feeds and nowhere else: there is at
    least one line, no line holds a line feed, and the lines joined by
    line feeds are the read. *)
Theorem split_lines_join (raw : string) :
  split_lines raw <> []
  /\ Forall (fun line => one_line line = true) (split_lines raw)
  /\ join_lines (split_lines raw) = raw.
Proof.
  split.
  { destruct (split_lines_cons raw) as (line & lines & ->). done. }
  induction raw as [|c raw [IHone IHjoin]]; simpl.
  { split; [by repeat constructor|done]. }
  destruct (Ascii.eqb c "010"%char) eqn:Hc.
  - apply Ascii.eqb_eq in Hc as ->. split; [by constructor|].
    rewrite join_lines_cons.
    destruct (split_lines_cons raw) as (line & lines & Hraw).
    rewrite Hraw in *. by rewrite IHjoin.
  - destruct (split_lines_cons raw) as (line & lines & Hraw).
    rewrite Hraw in *. apply Forall_cons in IHone as [Hline Hlines].
    split.
    + constructor; [|done]. simpl. by rewrite Hc, Hline.
    + rewrite join_lines_cons in *. destruct lines; by rewrite <- IHjoin.
Qed.


Variable C : collaborators.




Lemma unique_from_snoc (seen lines : list string) (x : string) :
  unique_from seen (lines ++ [x])
  = (unique_from seen lines
       ++ (if bool_decide (x ∈ seen ++ lines) then [] else [x]))%list.
Proof.
  revert seen. induction lines as [|line lines IH]; intros seen; simpl.
  - rewrite app_nil_r. by destruct (bool_decide (x ∈ seen)).
  - destruct (bool_decide (line ∈ seen)) eqn:Hseen; rewrite IH.
    + apply bool_decide_eq_true in Hseen.
      rewrite (bool_decide_ext (x ∈ (seen ++ lines)%list)
                 (x ∈ (seen ++ line :: lines)%list)); [done|].
      rewrite !elem_of_app, elem_of_cons.
      split; [tauto|]. intros [Hx|[->|Hx]]; tauto.
    + rewrite (bool_decide_ext (x ∈ ((line :: seen) ++ lines)%list)
                 (x ∈ (seen ++ line :: lines)%list)); [done|].
      rewrite !elem_of_app, !elem_of_cons. tauto.
Qed.

Lemma process_events_blank_last (now : Z) (events : list string)
    (blanks : list string) (s : service) :
  Forall (fun e => blank e = true) blanks ->
  process_events C now (events ++ blanks) s = process_events C now events s.
Proof.
  intros Hblank. revert s.
  induction events as [|event events IH]; intros s; simpl.
  - induction Hblank as [|e blanks He _ IHb]; simpl; [done|].
    by rewrite He.
  - destruct (blank event); [done|].
    destruct (JSON_parse C event); done.
Qed.

(** Lines of white space beyond ASCII are blank as well: a no-break
    space (U+00A0) followed by a line separator (U+2028). *)
Example blank_beyond_ascii :
  blank (String "194"%char (String "160"%char
           (String "226"%char (String "128"%char
              (String "168"%char EmptyString))))) = true
  /\ blank (String "194"%char (String "161"%char EmptyString)) = false.
Proof. split; reflexivity. Qed.

(** X16.  A line feed at the end of a read makes no difference: the empty
    last line it leaves is skipped. *)
Theorem trailing_newline_ignored (now : Z) (raw : string) (s : service) :
  onData C now (Some (raw ++ String "010"%char EmptyString)) s
  = onData C now (Some raw) s.
Proof.
  unfold onData, uniqueEvents.
  rewrite split_lines_app. simpl. rewrite unique_from_snoc.
  apply process_events_blank_last.
  destruct (bool_decide (EmptyString ∈ ([] ++ split_lines raw)%list));
    by repeat constructor.
Qed.

(** X17.  A frame with a transactionId is handled as a response and as
    nothing else, also when it names an event: the typing cache is left
    alone, and the service is either unchanged or has one transaction
    settled. *)
Theorem response_frame_only_settles (data : frame) (now : Z) (s : service) :
  truthy (f_transactionId data) = true ->
  typingCache (dispatch C data now s) = typingCache s
  /\ (dispatch C data now s = s
      \/ exists id result idx,
           f_transactionId data = Some id
           /\ dispatch C data now s
              = perform (Settled id result)
                  (set_transactionManager
                     (TransactionManager.settle (transactionManager s) idx)
                     s)).
Proof.
  intros Hid. unfold dispatch. rewrite Hid.
  destruct (f_transactionId data) as [id|]; [simpl|done].
  destruct (TransactionManager.findIndex (transactionManager s) id >=? 0)%Z.
  - split; [done|]. right. by eexists id, _, _.
  - split; [done|]. by left.
Qed.

End Framing.

Lemma response_frame_only_settles_witness :
  let data := Helper.mkFrame (Some "T1") (Some "G9") None None
                (Some "started-typing") (Some "G1") in
  Helper.typingCache
    (Helper.dispatch Examples.helper_collaborators data 7000
       Examples.awaiting_T1)
  = Helper.typingCache Examples.awaiting_T1
  /\ Helper.effects
       (Helper.dispatch Examples.helper_collaborators data 7000
          Examples.awaiting_T1)
     = [Helper.Settled "T1" (TransactionManager.Fulfilled (Some "G9") None)].
Proof.
  intros data.
  destruct (response_frame_only_settles Examples.helper_collaborators
              data 7000 Examples.awaiting_T1 eq_refl) as [Hcache _].
  split; [exact Hcache|reflexivity].
Defined.

(** ** Pace of typing emissions *)

Section TypingPace.

Import Helper.






End TypingPace.


(** ** Requests to the helper *)

Section Requests.

Import TransactionManager Helper.

(** X19.  [writeData] registers the transaction before it writes: the
    correlator holds it afterwards whether or not the write went through.
    The promise of the transaction is returned only with a socket and a
    write that answers true; otherwise the result is null (while the
    transaction stays registered), and without a socket nothing is
    written. *)
Theorem writeData_registers_first (res : bool) (action : string)
    (data : list (string * value)) (t : TransactionPromise) (s : service) :
  let out := writeData res action data (Some t) s in
  transactionManager out.1.1 = (transactionManager s ++ [t])%list
  /\ out.1.2
     = (if helper s
        then [{| r_action := action; r_data := data;
                 r_transactionId := Some (transactionId t) |}]
        else [])
  /\ out.2 = (if helper s && res then Some (transactionId t) else None)
  /\ restartCounter out.1.1 = restartCounter s
  /\ typingCache out.1.1 = typingCache s.
Proof.
  intros out. unfold out, writeData; simpl.
  destruct (helper s); simpl; [|done]. by destruct res.
Qed.

(** X20.  The commands check their parameters first.  With a required
    parameter missing or empty, [sendMessage], [toggleParticipant] and
    [setDisplayName] raise, register no transaction and write nothing;
    with all of them given they raise nothing and register exactly the
    new transaction, behind the earlier ones. *)
Theorem commands_validate_first (res : bool) (id : string) (s : service) :
  (forall chatGuid message attributedBody subject effectId selected partIndex,
     let out := sendMessage res id chatGuid message attributedBody subject
                  effectId selected partIndex s in
     if truthy chatGuid && truthy message
     then transactionManager out.1.1
          = (transactionManager s ++ [mkPromise id "MESSAGE"])%list
          /\ out.2 = Returned (if helper s && res then Some id else None)
     else out = (s, [], Raised "Failed to send message. Invalid params!"))
  /\ (forall chatGuid address action,
        let out := toggleParticipant res id chatGuid address action s in
        if truthy chatGuid && truthy address && truthy (Some action)
        then transactionManager out.1.1
             = (transactionManager s ++ [mkPromise id "CHAT"])%list
             /\ out.2 = Returned (if helper s && res then Some id else None)
        else out = (s, [], Raised ("Failed to " ++ action
                           ++ " participant to chat. Invalid params!")))
  /\ (forall chatGuid newName,
        let out := setDisplayName res id chatGuid newName s in
        if truthy chatGuid && truthy newName
        then transactionManager out.1.1
             = (transactionManager s ++ [mkPromise id "CHAT"])%list
             /\ out.2 = Returned (if helper s && res then Some id else None)
        else out
             = (s, [],
                Raised "Failed to set chat display name. Invalid params!")).
Proof.
  split; [|split].
  - intros chatGuid message attributedBody subject effectId selected
      partIndex out. unfold out, sendMessage, raise, returned.
    destruct (truthy chatGuid), (truthy message); simpl; try done.
    unfold writeData; simpl. destruct (helper s), res; done.
  - intros chatGuid address action out.
    unfold out, toggleParticipant, raise, returned.
    destruct (truthy chatGuid), (truthy address), (truthy (Some action));
      simpl; try done.
    unfold writeData; simpl. destruct (helper s), res; done.
  - intros chatGuid newName out. unfold out, setDisplayName, raise, returned.
    destruct (truthy chatGuid), (truthy newName); simpl; try done.
    unfold writeData; simpl. destruct (helper s), res; done.
Qed.

(** X21.  [getTypingStatus] sends its request without a transaction:
    whatever the helper answers, the call settles with null (or raises
    for a missing chatGuid), and the correlator is left as it was. *)
Theorem getTypingStatus_never_awaits (res : bool)
    (chatGuid : option string) (s : service) :
  let out := getTypingStatus res chatGuid s in
  transactionManager out.1.1 = transactionManager s
  /\ (out.2 = Returned None
      \/ (truthy chatGuid = false
          /\ out = (s, [],
                    Raised
                     "Failed to retreive typing status, no chatGuid specified!"))).
Proof.
  intros out. unfold out, getTypingStatus, raise, returned, writeData.
  destruct (truthy chatGuid); simpl.
  - destruct (helper s), res; simpl; auto.
  - auto.
Qed.

Lemma findIndex_from_fresh (promises : list TransactionPromise)
    (t : TransactionPromise) (i : Z) :
  transactionId t ∉ transactionId <$> promises ->
  findIndex_from i (promises ++ [t])%list (transactionId t)
  = i + Z.of_nat (length promises).
Proof.
  revert i. induction promises as [|p promises IH]; intros i Hfresh; simpl.
  - rewrite bool_decide_eq_true_2 by done. lia.
  - rewrite fmap_cons in Hfresh. apply not_elem_of_cons in Hfresh as [Hne Hf].
    rewrite bool_decide_eq_false_2 by done. rewrite IH by done. lia.
Qed.

Lemma settle_last (promises : list TransactionPromise)
    (t : TransactionPromise) :
  settle (promises ++ [t])%list (Z.of_nat (length promises)) = promises.
Proof.
  unfold settle. rewrite Nat2Z.id.
  induction promises as [|p promises IH]; simpl; [done|]. by f_equal.
Qed.

Variable C : collaborators.

(** X22.  Request and response: after [sendMessage] with valid
    parameters and a transactionId no outstanding transaction uses, a
    response frame with that id settles the new transaction and leaves
    the correlator as it was before the command. *)
Theorem sendMessage_then_response (res : bool) (id : string)
    (chatGuid message : option string)
    (attributedBody : option (list (string * string)))
    (subject effectId selected : option string) (partIndex : Z)
    (data : frame) (now : Z) (s : service)
    (Hchat : truthy chatGuid = true)
    (Hmessage : truthy message = true)
    (Hid : id <> EmptyString)
    (Hfresh : id ∉ transactionId <$> transactionManager s)
    (Hresponse : f_transactionId data = Some id) :
  let sent := (sendMessage res id chatGuid message attributedBody subject
                 effectId selected partIndex s).1.1 in
  transactionManager (dispatch C data now sent) = transactionManager s
  /\ exists result,
       effects (dispatch C data now sent)
       = (effects sent ++ [Settled id result])%list.
Proof.
  intros sent.
  assert (Htm : transactionManager sent
                = (transactionManager s ++ [mkPromise id "MESSAGE"])%list).
  { unfold sent, sendMessage, returned, writeData.
    rewrite Hchat, Hmessage; simpl.
    destruct (helper s), res; done. }
  clearbody sent.
  unfold dispatch. rewrite Hresponse; simpl.
  rewrite bool_decide_eq_false_2 by done; simpl.
  unfold findIndex. rewrite Htm.
  pose proof (findIndex_from_fresh (transactionManager s)
                (mkPromise id "MESSAGE") 0 Hfresh) as Hidx.
  change (transactionId (mkPromise id "MESSAGE")) with id in Hidx.
  rewrite Hidx.
  destruct (Z.geb_spec (0 + Z.of_nat (length (transactionManager s))) 0);
    [|lia].
  simpl. rewrite Z.add_0_l, settle_last. split; [done|]. by eexists.
Qed.

End Requests.

Lemma sendMessage_then_response_witness :
  let sent := (Helper.sendMessage true "T7" (Some "chat1") (Some "hi") None
                 None None None 0 Examples.awaiting_T1).1.1 in
  Helper.transactionManager
    (Helper.dispatch Examples.helper_collaborators
       (Helper.mkFrame (Some "T7") (Some "G9") None None None None)
       7000 sent)
  = Helper.transactionManager Examples.awaiting_T1
  /\ exists result,
       Helper.effects
         (Helper.dispatch Examples.helper_collaborators
            (Helper.mkFrame (Some "T7") (Some "G9") None None None None)
            7000 sent)
       = (Helper.effects sent ++ [Helper.Settled "T7" result])%list.
Proof.
  apply (sendMessage_then_response Examples.helper_collaborators true "T7"
           (Some "chat1") (Some "hi") None None None None 0
           (Helper.mkFrame (Some "T7") (Some "G9") None None None None)
           7000 Examples.awaiting_T1).
  - reflexivity.
  - reflexivity.
  - discriminate.
  - apply (bool_decide_unpack _). vm_compute. exact I.
  - reflexivity.
Defined.

(** ** Polls over time *)

Section Polls.

Import IncomingMessageListener.

Variable C : collaborators.

Lemma forEach_all_known (rows : list Message.t) (l : listener) :
  (forall e, e ∈ rows ->
     EventCache.find (cache l) (getCacheName C e) = true) ->
  foldl (forEach_entry C) l rows = l.
Proof.
  induction rows as [|e rows IH]; intros Hknown; simpl; [done|].
  unfold forEach_entry at 2.
  rewrite Hknown by (apply elem_of_cons; by left).
  apply IH. intros e' He'. apply Hknown, elem_of_cons. by right.
Qed.

(** X23.  A poll whose rows all carry cache keys of rows of the poll
    before (the windows overlap by 15 s) emits nothing: it asks the
    repository, logs, and leaves the listener otherwise as it was. *)
Theorem overlapping_poll_silent (after1 before1 after2 before2 : Z)
    (l : listener)
    (Hoverlap : forall e,
       e ∈ getMessages C (getEntries_params after2 before2) ->
       getCacheName C e
       ∈ getCacheName C <$> getMessages C (getEntries_params after1 before1)) :
  let l1 := getEntries C after1 before1 l in
  getEntries C after2 before2 l1
  = perform (Log "Last processing time was: ")
      (perform (GetMessages (getEntries_params after2 before2)) l1).
Proof.
  intros l1. unfold getEntries at 1.
  apply forEach_all_known. intros e He. simpl.
  unfold l1, getEntries. apply forEach_cache. right. by apply Hoverlap.
Qed.

Lemma forEach_emits (rows : list Message.t) (l : listener) :
  exists new,
    emitted (effects (foldl (forEach_entry C) l rows))
    = (emitted (effects l) ++ new)%list
    /\ NoDup (getCacheName C <$> new)
    /\ (forall e, e ∈ new -> e ∈ rows)
    /\ (forall k, k ∈ getCacheName C <$> new
                  <-> k ∈ getCacheName C <$> rows
                      /\ EventCache.find (cache l) k = false).
Proof.
  revert l. induction rows as [|e rows IH]; intros l; simpl.
  - exists []. rewrite app_nil_r. split; [done|]. split; [constructor|].
    split; [done|]. intros k. rewrite fmap_nil, elem_of_nil. tauto.
  - unfold forEach_entry at 2.
    destruct (EventCache.find (cache l) (getCacheName C e)) eqn:Hfind.
    + destruct (IH l) as (new & Hnew & Hnodup & Hin & Hkeys).
      exists new. split; [done|]. split; [done|]. split.
      * intros e' He'. apply elem_of_cons. right. by apply Hin.
      * intros k. rewrite Hkeys, ?fmap_cons, elem_of_cons.
        split; [tauto|]. intros [[->|Hk] Hf]; [congruence|tauto].
    + set (l2 := perform (Emit "new-entry" (transformEntry e))
                   (perform (CacheAdd (getCacheName C e))
                      (set_cache
                         (EventCache.add (cache l) (getCacheName C e)) l))).
      destruct (IH l2) as (new & Hnew & Hnodup & Hin & Hkeys).
      assert (Hcache : forall k,
                EventCache.find (cache l2) k = false
                <-> EventCache.find (cache l) k = false
                    /\ k <> getCacheName C e).
      { intros k. unfold l2; simpl.
        pose proof (EventCache_find_add_iff (cache l) (getCacheName C e) k).
        destruct (EventCache.find (EventCache.add (cache l) _) k),
          (EventCache.find (cache l) k);
          split; try tauto; try (intros [? ?]; tauto); intuition congruence. }
      exists (e :: new). split.
      { rewrite Hnew. unfold l2, emitted, transformEntry; simpl.
        rewrite !omap_app; simpl. by rewrite app_nil_r, <- app_assoc. }
      split.
      { rewrite ?fmap_cons. constructor; [|done].
        rewrite Hkeys, Hcache. tauto. }
      split.
      { intros e' [->|He']%elem_of_cons; apply elem_of_cons;
          [by left|right; by apply Hin]. }
      intros k. rewrite ?fmap_cons, !elem_of_cons, Hkeys, Hcache.
      destruct (decide (k = getCacheName C e)) as [->|Hne]; tauto.
Qed.

(** X24.  What one poll emits: rows the repository returned, with
    pairwise different cache keys; a key is among them exactly when some
    returned row carries it and the cache did not find it before the
    poll.  After the poll the cache finds the key of every returned
    row. *)
Theorem poll_emits_each_new_key_once (after_ before_ : Z) (l : listener) :
  let rows := getMessages C (getEntries_params after_ before_) in
  let l' := getEntries C after_ before_ l in
  (exists new,
     emitted (effects l') = (emitted (effects l) ++ new)%list
     /\ NoDup (getCacheName C <$> new)
     /\ (forall e, e ∈ new -> e ∈ rows)
     /\ (forall k, k ∈ getCacheName C <$> new
                   <-> k ∈ getCacheName C <$> rows
                       /\ EventCache.find (cache l) k = false))
  /\ forall e, e ∈ rows ->
       EventCache.find (cache l') (getCacheName C e) = true.
Proof.
  intros rows l'. split.
  - unfold l', getEntries. fold rows.
    destruct (forEach_emits rows
                (perform (Log "Last processing time was: ")
                   (perform (GetMessages (getEntries_params after_ before_))
                      l)))
      as (new & Hnew & Hnodup & Hin & Hkeys).
    exists new. split; [|done].
    rewrite Hnew. unfold emitted; simpl.
    by rewrite !omap_app, !app_nil_r.
  - intros e He. unfold l', getEntries. fold rows.
    apply forEach_cache. right. by apply list_elem_of_fmap_2.
Qed.

End Polls.

Lemma overlapping_poll_silent_witness :
  let l1 := IncomingMessageListener.getEntries Examples.inbox 60000 70000
              (IncomingMessageListener.mkListener EventCache.empty []) in
  IncomingMessageListener.getEntries Examples.inbox 70000 80000 l1
  = IncomingMessageListener.perform
      (IncomingMessageListener.Log "Last processing time was: ")
      (IncomingMessageListener.perform
         (IncomingMessageListener.GetMessages
            (IncomingMessageListener.getEntries_params 70000 80000)) l1).
Proof.
  apply (overlapping_poll_silent Examples.inbox 60000 70000 70000 80000).
  intros e He. by apply list_elem_of_fmap_2.
Defined.
